(** * download_drivers.py: a shallow embedding and its properties

    The script fetches Selenium browser drivers.  Everything it does goes
    through the host: [platform], [os.path], [urllib.request], [zipfile],
    [tarfile] and the file system.  The host is a record of the answers
    these facilities give; the file system and the trace of calls are the
    state threaded through a small state-and-exception monad. *)

From Stdlib Require Import String Ascii ZArith List Bool Lia.
From stdpp Require Import base gmap strings.
Import ListNotations.
Local Open Scope string_scope.
Local Open Scope Z_scope.

(** ** Python strings *)

Module PyStr.

(** [sub in s] for [str]. *)
Fixpoint str_in (sub s : string) : bool :=
  String.prefix sub s
  || match s with
     | EmptyString => false
     | String _ s' => str_in sub s'
     end.

(** [str.format] for templates whose only fields are the automatic
    [{}]; [None] stands for the [IndexError] raised when the arguments run
    out.  Arguments left over are ignored, as Python does. *)
Fixpoint format (tmpl : string) (args : list string) : option string :=
  match tmpl with
  | EmptyString => Some EmptyString
  | String "{" (String "}" rest) =>
      match args with
      | [] => None
      | a :: args' => option_map (String.append a) (format rest args')
      end
  | String c rest => option_map (String c) (format rest args)
  end.

(** [bytes.decode()] with the default codec (UTF-8) and the default error
    handler (strict).  A [string] here is a byte string holding the UTF-8
    form of the text, so decoding checks well-formedness and changes
    nothing else. *)
Definition cont (b : N) : bool := ((128 <=? b) && (b <=? 191))%N.
Definition within (lo hi b : N) : bool := ((lo <=? b) && (b <=? hi))%N.

Fixpoint utf8_ok (fuel : nat) (bs : list N) : bool :=
  match fuel with
  | O => match bs with [] => true | _ => false end
  | S fuel' =>
      match bs with
      | [] => true
      | b0 :: r0 =>
          if (b0 <=? 127)%N then utf8_ok fuel' r0
          else if within 194 223 b0 then
            match r0 with
            | b1 :: r1 => cont b1 && utf8_ok fuel' r1
            | _ => false
            end
          else if within 224 239 b0 then
            match r0 with
            | b1 :: b2 :: r2 =>
                (if (b0 =? 224)%N then within 160 191 b1
                 else if (b0 =? 237)%N then within 128 159 b1
                 else cont b1)
                && cont b2 && utf8_ok fuel' r2
            | _ => false
            end
          else if within 240 244 b0 then
            match r0 with
            | b1 :: b2 :: b3 :: r3 =>
                (if (b0 =? 240)%N then within 144 191 b1
                 else if (b0 =? 244)%N then within 128 143 b1
                 else cont b1)
                && cont b2 && cont b3 && utf8_ok fuel' r3
            | _ => false
            end
          else false
      end
  end.

Definition decode (body : list Byte.byte) : option string :=
  if utf8_ok (List.length body) (List.map Byte.to_N body)
  then Some (string_of_list_byte body)
  else None.

End PyStr.

(** ** Exceptions, host and world *)

Inductive exn : Type :=
| NotImplementedError (msg : string)
| URLError (url : string)
| UnicodeDecodeError
| IndexError
| FileNotFoundError (path : string)
| ArchiveError (path : string).

Inductive archive_kind : Type := Zip | TarGz.

(** A regular file: its bytes and its [st_mode] permission bits. *)
Record file : Type := File { data : list Byte.byte; mode : Z }.

(** An archive member as the extraction routine writes it: [zipfile] leaves
    the mode of the created file alone ([emode = None]), [tarfile] sets the
    recorded one. *)
Record entry : Type :=
  Entry { ename : string; edata : list Byte.byte; emode : option Z }.

(** What the host answers.  [http] is the remote side ([None]: the
    transport fails); [read_archive k bs] lists the members the extraction
    routine writes, in order, and tells whether it then returns ([true]) or
    raises ([false]). *)
Record Host : Type := {
  system : string;                        (* platform.system() *)
  machine : string;                       (* platform.uname()[4] *)
  pwd : string;                           (* abspath(dirname(__file__)) *)
  abspath : string -> string;             (* os.path.abspath *)
  join : string -> string -> string;      (* os.path.join *)
  new_mode : Z;                           (* 0o666 & ~umask *)
  http : string -> option (list Byte.byte);
  read_archive : archive_kind -> list Byte.byte -> list entry * bool
}.

(** The calls made to the outside, oldest first. *)
Inductive event : Type :=
| EvGet (url : string)
| EvWrite (path : string)
| EvExtract (k : archive_kind) (archive dir : string)
| EvChmod (path : string) (m : Z)
| EvRemove (path : string).

Record World : Type := { fs : gmap string file; log : list event }.

Definition emit (e : event) (w : World) : World :=
  {| fs := fs w; log := log w ++ [e] |}.

Definition set_fs (m : gmap string file) (w : World) : World :=
  {| fs := m; log := log w |}.

(** ** The monad: state that survives a raised exception *)

Inductive result (A : Type) : Type :=
| Ok (a : A)
| Raise (e : exn).
Arguments Ok {A} a.
Arguments Raise {A} e.

Definition M (A : Type) : Type := World -> result A * World.

Definition ret {A} (a : A) : M A := fun w => (Ok a, w).
Definition raise {A} (e : exn) : M A := fun w => (Raise e, w).
Definition bind {A B} (m : M A) (k : A -> M B) : M B :=
  fun w =>
    match m w with
    | (Ok a, w') => k a w'
    | (Raise e, w') => (Raise e, w')
    end.
Definition tell (e : event) : M unit := fun w => (Ok tt, emit e w).

Notation "'let*' x ':=' m 'in' k" := (bind m (fun x => k))
  (at level 10, x binder, m at level 100, k at level 200).
Notation "m '>>' k" := (bind m (fun _ => k))
  (at level 90, right associativity).

(** ** Names fixed at module level *)

Definition cdriver_latest_release_url : string :=
  "https://chromedriver.storage.googleapis.com/LATEST_RELEASE".
Definition cdriver_download_url : string :=
  "https://chromedriver.storage.googleapis.com/{}/chromedriver_{}.zip".
Definition gdriver_download_url : string :=
  "https://github.com/mozilla/geckodriver/releases/download/v{}/geckodriver-v{}-{}".

Definition S_IXUSR : Z := 64.   (* stat.S_IXUSR = 0o100 *)

Definition not_implemented : exn :=
  NotImplementedError "This OS is not implemented yet.".

(** ** Host primitives *)

Definition lift_format (o : option string) : M string :=
  match o with
  | Some s => ret s
  | None => raise IndexError
  end.

(** [urllib.request.urlopen(url).read()] *)
Definition urlopen_read (h : Host) (url : string) : M (list Byte.byte) :=
  tell (EvGet url) >>
  match http h url with
  | Some body => ret body
  | None => raise (URLError url)
  end.

(** [open(path, 'wb')] and a full write: an existing file keeps its mode. *)
Definition write_file (h : Host) (path : string) (bs : list Byte.byte)
    (m : gmap string file) : gmap string file :=
  match m !! path with
  | Some f => <[path := File bs (mode f)]> m
  | None => <[path := File bs (new_mode h)]> m
  end.

(** [urllib.request.urlretrieve(url, path)] *)
Definition urlretrieve (h : Host) (url path : string) : M unit :=
  tell (EvGet url) >>
  match http h url with
  | Some body =>
      tell (EvWrite path) >>
      fun w => (Ok tt, set_fs (write_file h path body (fs w)) w)
  | None => raise (URLError url)
  end.

Definition extract_entry (h : Host) (dir : string) (e : entry)
    (m : gmap string file) : gmap string file :=
  let p := join h dir (ename e) in
  let m' := write_file h p (edata e) m in
  match emode e with
  | Some md => <[p := File (edata e) md]> m'
  | None => m'
  end.

(** [ZipFile(file).extractall(path)] and [tarfile.open(file).extractall(path)]:
    the members are written one after the other; a damaged archive raises
    after the members before the damage are on disk. *)
Definition extractall (h : Host) (k : archive_kind) (archive dir : string)
    : M unit :=
  tell (EvExtract k archive dir) >>
  fun w =>
    match fs w !! archive with
    | None => (Raise (FileNotFoundError archive), w)
    | Some f =>
        let '(es, ok) := read_archive h k (data f) in
        let w' := set_fs (fold_left (fun m e => extract_entry h dir e m) es (fs w)) w in
        if ok then (Ok tt, w') else (Raise (ArchiveError archive), w')
    end.

(** [os.stat(path).st_mode] *)
Definition stat_mode (path : string) : M Z :=
  fun w =>
    match fs w !! path with
    | Some f => (Ok (mode f), w)
    | None => (Raise (FileNotFoundError path), w)
    end.

(** [os.chmod(path, m)] *)
Definition chmod (path : string) (md : Z) : M unit :=
  tell (EvChmod path md) >>
  fun w =>
    match fs w !! path with
    | Some f => (Ok tt, set_fs (<[path := File (data f) md]> (fs w)) w)
    | None => (Raise (FileNotFoundError path), w)
    end.

(** [os.remove(path)] *)
Definition remove (path : string) : M unit :=
  tell (EvRemove path) >>
  fun w =>
    match fs w !! path with
    | Some _ => (Ok tt, set_fs (delete path (fs w)) w)
    | None => (Raise (FileNotFoundError path), w)
    end.

(** ** class Utils *)

Module Utils.

Definition download_file (h : Host) (url file : string) : M unit :=
  urlretrieve h url (abspath h (join h (pwd h) file)).

Definition unzip (h : Host) (file path : string) : M unit :=
  extractall h Zip file path.

Definition untar (h : Host) (file path : string) : M unit :=
  extractall h TarGz file path.

Definition cleanup (file : string) : M unit := remove file.

End Utils.

(** ** class ChromeDriver *)

Module ChromeDriver.

Record t : Type := {
  version : string;
  cdriver_url : string;
  cdriver_path : string;
  cdriver_zip_path : string
}.

Definition get_version (h : Host) (version : string) : M string :=
  let* body :=
    (if String.eqb version "LATEST_RELEASE"
     then urlopen_read h cdriver_latest_release_url
     else
       let* suffix := lift_format (PyStr.format "_{}" [version]) in
       urlopen_read h (cdriver_latest_release_url ++ suffix)) in
  match PyStr.decode body with
  | Some s => ret s
  | None => raise UnicodeDecodeError
  end.

Definition get_cdriver_download_url (h : Host) (version : string) : M string :=
  let* cdriver_type :=
    (if String.eqb (system h) "Darwin" then ret "mac64"
     else if String.eqb (system h) "Linux" then ret "linux64"
     else if String.eqb (system h) "Windows" then ret "win32"
     else raise not_implemented) in
  lift_format (PyStr.format cdriver_download_url [version; cdriver_type]).

(** [__init__] *)
Definition init (h : Host) (version : string) : M t :=
  let* v := get_version h version in
  let* url := get_cdriver_download_url h v in
  let path := abspath h (pwd h ++ "/chromedriver") in
  ret {| version := v; cdriver_url := url;
         cdriver_path := path; cdriver_zip_path := path ++ ".zip" |}.

(** [__init__] called without a version: the default argument. *)
Definition init_default (h : Host) : M t := init h "LATEST_RELEASE".

Definition download_chromedriver (h : Host) (self : t) : M unit :=
  Utils.download_file h (cdriver_url self) "chromedriver.zip" >>
  Utils.unzip h (cdriver_zip_path self) (pwd h) >>
  (if negb (String.eqb (system h) "Windows")
   then
     let* m := stat_mode (cdriver_path self) in
     chmod (cdriver_path self) (Z.lor m S_IXUSR)
   else ret tt) >>
  Utils.cleanup (cdriver_zip_path self).

End ChromeDriver.

(** ** class GeckoDriver *)

Module GeckoDriver.

Record t : Type := {
  version : string;
  gdriver_url : string;
  gdriver_path : string;
  gdriver_tar_gz_path : string;
  gdriver_zip_path : string
}.

Definition get_gdriver_download_url (h : Host) (version : string) : M string :=
  let* gdriver_type :=
    (if String.eqb (system h) "Darwin" then ret "macos.tar.gz"
     else if String.eqb (system h) "Linux" then
       if PyStr.str_in "64" (machine h) then ret "linux64.tar.gz"
       else ret "linux32.tar.gz"
     else if String.eqb (system h) "Windows" then
       if PyStr.str_in "64" (machine h) then ret "win64.zip"
       else ret "win32.zip"
     else raise not_implemented) in
  lift_format (PyStr.format gdriver_download_url [version; version; gdriver_type]).

(** [__init__] *)
Definition init (h : Host) (version : string) : M t :=
  let* url := get_gdriver_download_url h version in
  let path := abspath h (pwd h ++ "/geckodriver") in
  ret {| version := version; gdriver_url := url; gdriver_path := path;
         gdriver_tar_gz_path := path ++ ".tar.gz";
         gdriver_zip_path := path ++ ".zip" |}.

Definition download_geckodriver (h : Host) (self : t) : M unit :=
  if String.eqb (system h) "Windows" then
    Utils.download_file h (gdriver_url self) "geckodriver.zip" >>
    Utils.unzip h (gdriver_zip_path self) (pwd h) >>
    Utils.cleanup (gdriver_zip_path self)
  else
    Utils.download_file h (gdriver_url self) "geckodriver.tar.gz" >>
    Utils.untar h (gdriver_tar_gz_path self) (pwd h) >>
    Utils.cleanup (gdriver_tar_gz_path self).

End GeckoDriver.

(** ** Hosts used to run the model *)

Module Demo.

(** [posixpath.join] for two components. *)
Definition posix_join (a b : string) : string :=
  if String.prefix "/" b then b
  else if String.eqb a "" || String.eqb (String.substring (String.length a - 1) 1 a) "/"
       then a ++ b
       else a ++ "/" ++ b.

Definition latest_body : list Byte.byte := list_byte_of_string "79.0.3945.36".
Definition v78_body : list Byte.byte := list_byte_of_string "78.0.3904.105".
Definition zip_body : list Byte.byte := list_byte_of_string "PK chromedriver".
Definition tgz_body : list Byte.byte := list_byte_of_string "GZ geckodriver".
Definition driver_body : list Byte.byte := list_byte_of_string "ELF".

Definition remote (url : string) : option (list Byte.byte) :=
  if String.eqb url "https://chromedriver.storage.googleapis.com/LATEST_RELEASE"
  then Some latest_body
  else if String.eqb url "https://chromedriver.storage.googleapis.com/LATEST_RELEASE_78"
  then Some v78_body
  else if String.prefix "https://chromedriver.storage.googleapis.com/7" url
  then Some zip_body
  else if String.prefix "https://github.com/mozilla/geckodriver/releases/download/v0.26.0/" url
  then Some tgz_body
  else None.

Definition reader (k : archive_kind) (bs : list Byte.byte) : list entry * bool :=
  match k with
  | Zip => ([Entry "chromedriver" driver_body None], true)
  | TarGz => ([Entry "geckodriver" driver_body (Some 493)], true)
  end.

(** An archive that holds a licence text and no driver. *)
Definition reader_docs (k : archive_kind) (bs : list Byte.byte) : list entry * bool :=
  ([Entry "LICENSE" (list_byte_of_string "BSD") None], true).

(** An archive whose second member is damaged: the first one is written,
    then the extraction raises. *)
Definition reader_damaged (k : archive_kind) (bs : list Byte.byte) : list entry * bool :=
  ([Entry "README" (list_byte_of_string "read me") None], false).

(** The script sits in /opt/drivers; every path it builds there is already
    absolute and normal, so [abspath] returns it as it is. *)
Definition host_with (rd : archive_kind -> list Byte.byte -> list entry * bool)
    (sys mach : string) : Host := {|
  system := sys;
  machine := mach;
  pwd := "/opt/drivers";
  abspath := fun p => p;
  join := posix_join;
  new_mode := 420;
  http := remote;
  read_archive := rd
|}.

Definition host : string -> string -> Host := host_with reader.

Definition world0 : World := {| fs := ∅; log := [] |}.

(** [ChromeDriver('78')] on Linux, and [GeckoDriver('0.26.0')] on Linux and
    on Windows. *)
Definition chrome78 : ChromeDriver.t := {|
  ChromeDriver.version := "78.0.3904.105";
  ChromeDriver.cdriver_url :=
    "https://chromedriver.storage.googleapis.com/78.0.3904.105/chromedriver_linux64.zip";
  ChromeDriver.cdriver_path := "/opt/drivers/chromedriver";
  ChromeDriver.cdriver_zip_path := "/opt/drivers/chromedriver.zip"
|}.

Definition gecko26 (sfx : string) : GeckoDriver.t := {|
  GeckoDriver.version := "0.26.0";
  GeckoDriver.gdriver_url :=
    "https://github.com/mozilla/geckodriver/releases/download/v0.26.0/geckodriver-v0.26.0-" ++ sfx;
  GeckoDriver.gdriver_path := "/opt/drivers/geckodriver";
  GeckoDriver.gdriver_tar_gz_path := "/opt/drivers/geckodriver.tar.gz";
  GeckoDriver.gdriver_zip_path := "/opt/drivers/geckodriver.zip"
|}.



End Demo.

(** ** The tables of the specification *)

(** Chrome: operating system to archive suffix. *)
Inductive spec_chrome_suffix : string -> string -> Prop :=
| chrome_darwin : spec_chrome_suffix "Darwin" "mac64"
| chrome_linux : spec_chrome_suffix "Linux" "linux64"
| chrome_windows : spec_chrome_suffix "Windows" "win32".

(** Firefox: operating system and 64-bit flag to suffix and archive kind. *)
Inductive spec_gecko_suffix : string -> bool -> string -> archive_kind -> Prop :=
| gecko_darwin b : spec_gecko_suffix "Darwin" b "macos.tar.gz" TarGz
| gecko_linux64 : spec_gecko_suffix "Linux" true "linux64.tar.gz" TarGz
| gecko_linux32 : spec_gecko_suffix "Linux" false "linux32.tar.gz" TarGz
| gecko_win64 : spec_gecko_suffix "Windows" true "win64.zip" Zip
| gecko_win32 : spec_gecko_suffix "Windows" false "win32.zip" Zip.

(** The three operating systems the script knows. *)
Definition supported (os : string) : Prop :=
  os = "Darwin" \/ os = "Linux" \/ os = "Windows".

(** The file extension of each archive kind. *)
Definition extension (k : archive_kind) : string :=
  match k with
  | Zip => ".zip"
  | TarGz => ".tar.gz"
  end.

(** [s.endswith(ext)] *)
Definition endswith (s ext : string) : bool :=
  String.eqb (String.substring (String.length s - String.length ext)
                (String.length ext) s) ext
  && (String.length ext <=? String.length s)%nat.

Definition is_get (e : event) : bool :=
  match e with EvGet _ => true | _ => false end.

Definition is_chmod (e : event) : bool :=
  match e with EvChmod _ _ => true | _ => false end.

Definition chrome_url (v sfx : string) : string :=
  "https://chromedriver.storage.googleapis.com/" ++ v ++ "/chromedriver_" ++ sfx ++ ".zip".

Definition gecko_url (v sfx : string) : string :=
  "https://github.com/mozilla/geckodriver/releases/download/v" ++ v
  ++ "/geckodriver-v" ++ v ++ "-" ++ sfx.

(** What one request-and-decode gives. *)
Definition fetched (h : Host) (url : string) : result string :=
  match http h url with
  | None => Raise (URLError url)
  | Some body =>
      match PyStr.decode body with
      | Some s => Ok s
      | None => Raise UnicodeDecodeError
      end
  end.

(** The first two steps of [download_chromedriver]: fetch and extract. *)
Definition chrome_fetch_extract (h : Host) (self : ChromeDriver.t) : M unit :=
  Utils.download_file h (ChromeDriver.cdriver_url self) "chromedriver.zip" >>
  Utils.unzip h (ChromeDriver.cdriver_zip_path self) (pwd h).

(** The branch [download_geckodriver] takes, and the archive path it uses. *)
Definition gecko_kind (h : Host) : archive_kind :=
  if String.eqb (system h) "Windows" then Zip else TarGz.

Definition gecko_archive (self : GeckoDriver.t) (k : archive_kind) : string :=
  match k with
  | Zip => GeckoDriver.gdriver_zip_path self
  | TarGz => GeckoDriver.gdriver_tar_gz_path self
  end.

Definition gecko_fetch_extract (h : Host) (self : GeckoDriver.t) : M unit :=
  Utils.download_file h (GeckoDriver.gdriver_url self)
    ("geckodriver" ++ extension (gecko_kind h)) >>
  extractall h (gecko_kind h) (gecko_archive self (gecko_kind h)) (pwd h).

(** What holds when an action has fetched [name] from [url], extracted the
    archive at [arch] as kind [k] and removed it, from world [w] to [w2]:
    the extraction ran and returned in some world [w1]; only mode changes
    separate its return from the removal, which is the last call; the
    archive is gone and whatever extraction left elsewhere is there. *)
Definition cleaned (h : Host) (k : archive_kind) (url name arch : string)
    (w w2 : World) : Prop :=
  exists (wd w1 : World) (fa : file) (es : list entry) (mid : list event),
    Utils.download_file h url name w = (Ok tt, wd)
    /\ fs wd !! arch = Some fa
    /\ read_archive h k (data fa) = (es, true)
    /\ extractall h k arch (pwd h) wd = (Ok tt, w1)
    /\ log w1 = (log wd ++ [EvExtract k arch (pwd h)])%list
    /\ log w2 = (log w1 ++ mid ++ [EvRemove arch])%list
    /\ (forall e, In e mid -> is_chmod e = true)
    /\ fs w2 !! arch = None
    /\ (forall q, q <> arch -> is_Some (fs w1 !! q) -> is_Some (fs w2 !! q))
    /\ (forall e, In e es -> join h (pwd h) (ename e) <> arch ->
          is_Some (fs w2 !! join h (pwd h) (ename e))).

(** What [extract_entry] does to the file at one path [p], and to its
    mode alone. *)
Definition mode_or_new (h : Host) (o : option file) : Z :=
  match o with
  | Some f => mode f
  | None => new_mode h
  end.

Definition mode_step (h : Host) (dir p : string) (e : entry) (m : Z) : Z :=
  if String.eqb (join h dir (ename e)) p
  then match emode e with Some md => md | None => m end
  else m.

Definition entry_at (h : Host) (dir p : string) (e : entry) (o : option file)
    : option file :=
  if String.eqb (join h dir (ename e)) p
  then Some (File (edata e) (mode_step h dir p e (mode_or_new h o)))
  else o.

(** ** The string functions at work *)

Example decode_ascii :
  PyStr.decode (list_byte_of_string "78.0.3904.105") = Some "78.0.3904.105".
Proof. reflexivity. Qed.

Example decode_keeps_newline :
  PyStr.decode [Byte.x37; Byte.x38; Byte.x0a] = Some (String "7" (String "8" (String "010" ""))).
Proof. reflexivity. Qed.

Example decode_two_bytes : PyStr.decode [Byte.xc3; Byte.xa9] <> None.
Proof. discriminate. Qed.

Example decode_overlong : PyStr.decode [Byte.xc0; Byte.x80] = None.
Proof. reflexivity. Qed.

Example decode_surrogate : PyStr.decode [Byte.xed; Byte.xa0; Byte.x80] = None.
Proof. reflexivity. Qed.

Example decode_truncated : PyStr.decode [Byte.xe2; Byte.x82] = None.
Proof. reflexivity. Qed.

Example format_two :
  PyStr.format "{}/chromedriver_{}.zip" ["78"; "win32"] = Some "78/chromedriver_win32.zip".
Proof. reflexivity. Qed.

Example format_short : PyStr.format "v{}-{}" ["0.26.0"] = None.
Proof. reflexivity. Qed.

Example str_in_x86_64 : PyStr.str_in "64" "x86_64" = true.
Proof. reflexivity. Qed.

Example str_in_i686 : PyStr.str_in "64" "i686" = false.
Proof. reflexivity. Qed.

(** ** Strings *)

(* stdpp freezes [String.append] under [simpl]; the proofs below compute
   with it. *)
#[local] Arguments String.append !_ _ / : simpl nomatch.

Section Strings.

Lemma append_nil_r (s : string) : s ++ "" = s.
Proof. induction s as [|c s IH]; simpl; congruence. Qed.

Lemma append_assoc (a b c : string) : (a ++ b) ++ c = a ++ b ++ c.
Proof. induction a as [|x a IH]; simpl; congruence. Qed.

Lemma append_inv_head (a b c : string) : a ++ b = a ++ c -> b = c.
Proof. induction a as [|x a IH]; simpl; intros H; [assumption|]. injection H. exact IH. Qed.

Lemma length_append (a b : string) :
  String.length (a ++ b) = (String.length a + String.length b)%nat.
Proof. induction a as [|x a IH]; simpl; [reflexivity | rewrite IH; reflexivity]. Qed.

Lemma prefix_append (a b : string) : String.prefix a (a ++ b) = true.
Proof.
  induction a as [|x a IH]; simpl.
  - destruct b; reflexivity.
  - destruct (Ascii.ascii_dec x x); [exact IH | contradiction].
Qed.

Lemma str_in_here (sub s : string) : String.prefix sub s = true -> PyStr.str_in sub s = true.
Proof. intros H. destruct s; cbn [PyStr.str_in]; rewrite H; reflexivity. Qed.

Lemma str_in_append (a sub b : string) : PyStr.str_in sub (a ++ sub ++ b) = true.
Proof.
  induction a as [|x a IH].
  - change ("" ++ sub ++ b) with (sub ++ b). apply str_in_here, prefix_append.
  - change (String x a ++ sub ++ b) with (String x (a ++ sub ++ b)).
    cbn [PyStr.str_in]. rewrite IH. apply orb_true_r.
Qed.

Lemma eqb_neq_false (a b : string) : a <> b -> String.eqb a b = false.
Proof. intros H. apply String.eqb_neq. exact H. Qed.

Lemma format_chrome (v sfx : string) :
  PyStr.format cdriver_download_url [v; sfx] = Some (chrome_url v sfx).
Proof. reflexivity. Qed.

Lemma format_gecko (v sfx : string) :
  PyStr.format gdriver_download_url [v; v; sfx] = Some (gecko_url v sfx).
Proof.
  unfold gecko_url. cbn.
  rewrite (append_nil_r sfx). reflexivity.
Qed.

Lemma format_underscore (v : string) : PyStr.format "_{}" [v] = Some ("_" ++ v).
Proof. cbn. rewrite append_nil_r. reflexivity. Qed.

Lemma substring_skip (a b : string) (n m : nat) :
  String.substring (String.length a + n) m (a ++ b) = String.substring n m b.
Proof. induction a as [|x a IH]; simpl; [reflexivity | exact IH]. Qed.

Lemma substring_all (b : string) : String.substring 0 (String.length b) b = b.
Proof. induction b as [|x b IH]; simpl; [reflexivity | rewrite IH; reflexivity]. Qed.

Lemma endswith_append_r (a b ext : string) :
  (String.length ext <= String.length b)%nat ->
  endswith (a ++ b) ext = endswith b ext.
Proof.
  intros Hle. unfold endswith. rewrite length_append.
  replace (String.length a + String.length b - String.length ext)%nat
    with (String.length a + (String.length b - String.length ext))%nat by lia.
  rewrite substring_skip.
  replace (String.length ext <=? String.length a + String.length b)%nat with true
    by (symmetry; apply Nat.leb_le; lia).
  replace (String.length ext <=? String.length b)%nat with true
    by (symmetry; apply Nat.leb_le; lia).
  reflexivity.
Qed.

Lemma chrome_url_zip (v sfx : string) : endswith (chrome_url v sfx) ".zip" = true.
Proof.
  unfold chrome_url. rewrite <- !append_assoc.
  rewrite endswith_append_r by (simpl; lia). reflexivity.
Qed.

Lemma chrome_url_inj (v a b : string) : chrome_url v a = chrome_url v b -> a ++ ".zip" = b ++ ".zip".
Proof.
  unfold chrome_url. intros H.
  apply append_inv_head in H. apply append_inv_head in H.
  apply append_inv_head in H. exact H.
Qed.

End Strings.

(** ** Running the monad *)

Ltac unfold_prims :=
  unfold Utils.download_file, Utils.unzip, Utils.untar, Utils.cleanup,
    urlretrieve, urlopen_read, extractall, stat_mode, chmod, remove,
    lift_format, bind, tell, ret, raise, emit, set_fs in *.

Ltac run_cases :=
  unfold_prims; cbn [fst snd log fs] in *;
  repeat (case_match; cbn [fst snd log fs] in *; simplify_eq);
  cbn [fst snd log fs] in *.

Ltac in_log :=
  repeat (rewrite !in_app_iff in *; cbn [In] in *);
  intuition (try discriminate; try congruence).

Section MonadLaws.

Context {A B : Type}.

Lemma bind_ok (m : M A) (k : A -> M B) (w w' : World) (a : A) :
  m w = (Ok a, w') -> bind m k w = k a w'.
Proof. unfold bind. intros ->. reflexivity. Qed.

Lemma bind_raise (m : M A) (k : A -> M B) (w w' : World) (e : exn) :
  m w = (Raise e, w') -> bind m k w = (Raise e, w').
Proof. unfold bind. intros ->. reflexivity. Qed.

Lemma bind_ok_inv (m : M A) (k : A -> M B) (w w2 : World) (b : B) :
  bind m k w = (Ok b, w2) ->
  exists a w', m w = (Ok a, w') /\ k a w' = (Ok b, w2).
Proof.
  unfold bind. destruct (m w) as [[a|e] w']; intros H.
  - exists a, w'. split; [reflexivity | exact H].
  - discriminate H.
Qed.

End MonadLaws.

(** ** The URL builders *)

Section Builders.

Variable h : Host.

Lemma cdriver_type_supported (v sfx : string) (w : World) :
  spec_chrome_suffix (system h) sfx ->
  ChromeDriver.get_cdriver_download_url h v w = (Ok (chrome_url v sfx), w).
Proof.
  intros Hs. unfold ChromeDriver.get_cdriver_download_url.
  inversion Hs as [E|E|E]; unfold bind, ret; cbn; reflexivity.
Qed.

Lemma chrome_extract_zip (self : ChromeDriver.t) (w : World) (e : event) :
  In e (log (snd (ChromeDriver.download_chromedriver h self w))) ->
  In e (log w) \/ match e with EvExtract k _ _ => k = Zip | _ => True end.
Proof.
  unfold ChromeDriver.download_chromedriver. run_cases; in_log; subst; auto.
Qed.

Lemma cdriver_type_unsupported (v : string) (w : World) :
  ~ supported (system h) ->
  ChromeDriver.get_cdriver_download_url h v w = (Raise not_implemented, w).
Proof.
  unfold supported. intros Hn. unfold ChromeDriver.get_cdriver_download_url, bind, raise.
  rewrite !eqb_neq_false by tauto. reflexivity.
Qed.

Lemma gdriver_type_unsupported (v : string) (w : World) :
  ~ supported (system h) ->
  GeckoDriver.get_gdriver_download_url h v w = (Raise not_implemented, w).
Proof.
  unfold supported. intros Hn. unfold GeckoDriver.get_gdriver_download_url, bind, raise.
  rewrite !eqb_neq_false by tauto. reflexivity.
Qed.

Lemma gdriver_type_supported (v sfx : string) (k : archive_kind) (w : World) :
  spec_gecko_suffix (system h) (PyStr.str_in "64" (machine h)) sfx k ->
  GeckoDriver.get_gdriver_download_url h v w = (Ok (gecko_url v sfx), w).
Proof.
  intros Hs. unfold GeckoDriver.get_gdriver_download_url, bind, ret, lift_format.
  inversion Hs as [b E1 E2|E1 E2|E1 E2|E1 E2|E1 E2];
    rewrite <- ?E2; cbn [String.eqb Ascii.eqb Bool.eqb]; cbn match;
    rewrite format_gecko; reflexivity.
Qed.

Lemma gecko_url_kind (os : string) (b : bool) (v sfx : string) (k : archive_kind) :
  spec_gecko_suffix os b sfx k -> endswith (gecko_url v sfx) (extension k) = true.
Proof.
  intros Hs. unfold gecko_url. rewrite <- !append_assoc.
  destruct Hs; (rewrite endswith_append_r by (simpl; lia)); reflexivity.
Qed.

End Builders.

(** ** The claims about the URL builders *)

(** C1: on each of the three operating systems the script knows, the
    Chrome URL builder returns, without raising and without touching the
    world, the download template filled with the version and that
    system's suffix (Darwin: mac64, Linux: linux64, Windows: win32).  The
    suffix occurs in the URL, the suffixes and the URLs of different
    systems differ, the URL names a .zip file, and every extraction the
    download step performs is a ZIP extraction. *)
Theorem chrome_url_builder_supported (h : Host) (v sfx : string) (w : World) :
  spec_chrome_suffix (system h) sfx ->
  ChromeDriver.get_cdriver_download_url h v w = (Ok (chrome_url v sfx), w)
  /\ PyStr.str_in sfx (chrome_url v sfx) = true
  /\ endswith (chrome_url v sfx) (extension Zip) = true
  /\ (forall os' sfx', spec_chrome_suffix os' sfx' -> os' <> system h ->
        sfx' <> sfx /\ chrome_url v sfx' <> chrome_url v sfx)
  /\ (forall self w0 e,
        In e (log (snd (ChromeDriver.download_chromedriver h self w0))) ->
        In e (log w0) \/ match e with EvExtract k _ _ => k = Zip | _ => True end).
Proof.
  intros Hs. split; [|split; [|split; [|split]]].
  - apply cdriver_type_supported, Hs.
  - unfold chrome_url.
    rewrite <- (append_assoc "https://chromedriver.storage.googleapis.com/" v).
    rewrite <- (append_assoc _ "/chromedriver_").
    apply str_in_append.
  - apply chrome_url_zip.
  - intros os' sfx' Hs' Hne.
    assert (Hd : sfx' ++ ".zip" <> sfx ++ ".zip")
      by (destruct Hs'; inversion Hs; subst; first [congruence | discriminate]).
    split.
    + intros ->. apply Hd. reflexivity.
    + intros E. apply Hd, (chrome_url_inj v), E.
  - apply chrome_extract_zip.
Qed.

Lemma chrome_url_builder_supported_witness :
  ChromeDriver.get_cdriver_download_url (Demo.host "Linux" "x86_64")
    "78.0.3904.105" Demo.world0
  = (Ok "https://chromedriver.storage.googleapis.com/78.0.3904.105/chromedriver_linux64.zip",
     Demo.world0).
Proof.
  exact (proj1 (chrome_url_builder_supported (Demo.host "Linux" "x86_64")
                  "78.0.3904.105" "linux64" Demo.world0 chrome_linux)).
Defined.

(** C5: when [platform.system()] is none of Darwin, Linux and Windows,
    both URL builders raise NotImplementedError and return no URL. *)
Theorem url_builders_unsupported_os (h : Host) (v : string) (w : World) :
  ~ supported (system h) ->
  ChromeDriver.get_cdriver_download_url h v w = (Raise not_implemented, w)
  /\ GeckoDriver.get_gdriver_download_url h v w = (Raise not_implemented, w).
Proof.
  intros Hn. split.
  - apply cdriver_type_unsupported, Hn.
  - apply gdriver_type_unsupported, Hn.
Qed.

Lemma url_builders_unsupported_os_witness :
  ChromeDriver.get_cdriver_download_url (Demo.host "FreeBSD" "amd64") "78.0.3904.105" Demo.world0
  = (Raise (NotImplementedError "This OS is not implemented yet."), Demo.world0)
  /\ GeckoDriver.get_gdriver_download_url (Demo.host "FreeBSD" "amd64") "0.26.0" Demo.world0
  = (Raise (NotImplementedError "This OS is not implemented yet."), Demo.world0).
Proof.
  assert (Hn : ~ supported (system (Demo.host "FreeBSD" "amd64")))
    by (unfold supported; simpl; intros [E|[E|E]]; discriminate E).
  split.
  - exact (proj1 (url_builders_unsupported_os _ "78.0.3904.105" Demo.world0 Hn)).
  - exact (proj2 (url_builders_unsupported_os _ "0.26.0" Demo.world0 Hn)).
Defined.

(** C4: the Firefox flow takes the caller's version as it is: building the
    object makes no request and changes nothing, the object holds the very
    version string, and the URL is the template with the version in both
    places followed by the suffix of the table (Darwin: macos.tar.gz;
    Linux: linux64.tar.gz or linux32.tar.gz; Windows: win64.zip or
    win32.zip, the 64-bit one exactly when the machine string contains
    64).  The URL ends in the extension of the table's archive kind;
    x86_64 counts as 64-bit and i686 does not. *)
Theorem gecko_url_builder_supported (h : Host) (v sfx : string)
    (k : archive_kind) (w : World) :
  spec_gecko_suffix (system h) (PyStr.str_in "64" (machine h)) sfx k ->
  GeckoDriver.get_gdriver_download_url h v w = (Ok (gecko_url v sfx), w)
  /\ (exists self, GeckoDriver.init h v w = (Ok self, w)
        /\ GeckoDriver.version self = v
        /\ GeckoDriver.gdriver_url self = gecko_url v sfx)
  /\ endswith (gecko_url v sfx) (extension k) = true
  /\ PyStr.str_in "64" "x86_64" = true
  /\ PyStr.str_in "64" "i686" = false.
Proof.
  intros Hs. split; [|split; [|split; [|split]]].
  - eapply gdriver_type_supported, Hs.
  - unfold GeckoDriver.init, bind.
    rewrite (gdriver_type_supported h v sfx k w Hs).
    eexists. split; [reflexivity|]. split; reflexivity.
  - eapply gecko_url_kind, Hs.
  - reflexivity.
  - reflexivity.
Qed.

Lemma gecko_url_builder_supported_witness :
  GeckoDriver.get_gdriver_download_url (Demo.host "Windows" "AMD64") "0.26.0" Demo.world0
  = (Ok "https://github.com/mozilla/geckodriver/releases/download/v0.26.0/geckodriver-v0.26.0-win64.zip",
     Demo.world0).
Proof.
  exact (proj1 (gecko_url_builder_supported (Demo.host "Windows" "AMD64")
                  "0.26.0" "win64.zip" Zip Demo.world0 gecko_win64)).
Defined.

(** ** The version resolver *)

Section Resolver.

Variable h : Host.

Lemma get_version_sentinel (w : World) :
  ChromeDriver.get_version h "LATEST_RELEASE" w
  = (fetched h cdriver_latest_release_url, emit (EvGet cdriver_latest_release_url) w).
Proof.
  unfold ChromeDriver.get_version, fetched. cbn [String.eqb Ascii.eqb Bool.eqb]. cbn match.
  unfold_prims. repeat case_match; simplify_eq; reflexivity.
Qed.

Lemma get_version_other (v : string) (w : World) :
  v <> "LATEST_RELEASE" ->
  ChromeDriver.get_version h v w
  = (fetched h (cdriver_latest_release_url ++ "_" ++ v),
     emit (EvGet (cdriver_latest_release_url ++ "_" ++ v)) w).
Proof.
  intros Hv. unfold ChromeDriver.get_version, fetched.
  rewrite (eqb_neq_false _ _ Hv), format_underscore.
  unfold_prims. repeat case_match; simplify_eq; reflexivity.
Qed.

Lemma fetched_body (url s : string) :
  fetched h url = Ok s -> http h url = Some (list_byte_of_string s).
Proof.
  unfold fetched, PyStr.decode. intros H.
  repeat case_match; simplify_eq.
  rewrite list_byte_of_string_of_list_byte. reflexivity.
Qed.

Lemma appended_url_differs (v : string) :
  cdriver_latest_release_url ++ "_" ++ v <> cdriver_latest_release_url.
Proof.
  intros E. apply (f_equal String.length) in E.
  rewrite length_append in E. simpl in E. lia.
Qed.

End Resolver.

(** C3: a version token other than LATEST_RELEASE, such as 78, makes the
    resolver send one GET to the latest-release endpoint followed by an
    underscore and the token; the resolved version is the decoded body of
    that response, byte for byte. *)
Theorem get_version_partial (h : Host) (v : string) (w : World) :
  v <> "LATEST_RELEASE" ->
  let url := cdriver_latest_release_url ++ "_" ++ v in
  let r := ChromeDriver.get_version h v w in
  snd r = emit (EvGet url) w
  /\ fst r = fetched h url
  /\ (forall s, fst r = Ok s -> http h url = Some (list_byte_of_string s)).
Proof.
  intros Hv url r. subst r. rewrite (get_version_other h v w Hv). fold url.
  cbn [fst snd]. repeat split. apply (fetched_body h).
Qed.

Lemma get_version_partial_witness :
  ChromeDriver.get_version (Demo.host "Linux" "x86_64") "78" Demo.world0
  = (Ok "78.0.3904.105",
     {| fs := ∅;
        log := [EvGet "https://chromedriver.storage.googleapis.com/LATEST_RELEASE_78"] |}).
Proof.
  assert (Hv : "78" <> "LATEST_RELEASE") by discriminate.
  pose proof (get_version_partial (Demo.host "Linux" "x86_64") "78" Demo.world0 Hv) as H.
  cbv zeta in H. destruct H as (H2 & H1 & _).
  rewrite (surjective_pairing (ChromeDriver.get_version _ _ _)), H1, H2.
  reflexivity.
Defined.

(** C2, as written: with the token latest the resolver would ask the
    fixed endpoint itself.  It does not: latest is an ordinary token for
    the script, the request goes to LATEST_RELEASE_latest. *)
Lemma get_version_latest_token_appended :
  let r := ChromeDriver.get_version (Demo.host "Linux" "x86_64") "latest" Demo.world0 in
  log (snd r)
  = [EvGet "https://chromedriver.storage.googleapis.com/LATEST_RELEASE_latest"]
  /\ log (snd r) <> [EvGet cdriver_latest_release_url].
Proof. cbv zeta. split; [reflexivity | discriminate]. Qed.

(** C2, amended: with the token LATEST_RELEASE the resolver sends one GET
    to the fixed latest-release endpoint, nothing appended, and returns
    the decoded body of the response, byte for byte: nothing is trimmed
    and nothing is checked beyond the decoding itself. *)
Theorem get_version_latest_release (h : Host) (w : World) :
  let r := ChromeDriver.get_version h "LATEST_RELEASE" w in
  snd r = emit (EvGet cdriver_latest_release_url) w
  /\ fst r = fetched h cdriver_latest_release_url
  /\ (forall s, fst r = Ok s ->
        http h cdriver_latest_release_url = Some (list_byte_of_string s)).
Proof.
  intros r. subst r. rewrite get_version_sentinel.
  cbn [fst snd]. repeat split. apply (fetched_body h).
Qed.

Lemma get_version_latest_release_witness :
  http (Demo.host "Darwin" "x86_64") cdriver_latest_release_url
  = Some (list_byte_of_string "79.0.3945.36").
Proof.
  apply (proj2 (proj2 (get_version_latest_release (Demo.host "Darwin" "x86_64") Demo.world0))).
  reflexivity.
Defined.

(** C9: the resolver asks the fixed endpoint exactly when the token is the
    string LATEST_RELEASE, which is what the constructor passes when it is
    called without a version.  Any other token, latest and the empty
    string among them, is appended after an underscore as it is. *)
Theorem get_version_sentinel_iff (h : Host) (v : string) (w : World) :
  (log (snd (ChromeDriver.get_version h v w))
     = (log w ++ [EvGet cdriver_latest_release_url])%list
   <-> v = "LATEST_RELEASE")
  /\ (v <> "LATEST_RELEASE" ->
      log (snd (ChromeDriver.get_version h v w))
      = (log w ++ [EvGet (cdriver_latest_release_url ++ "_" ++ v)])%list)
  /\ ChromeDriver.init_default h = ChromeDriver.init h "LATEST_RELEASE"
  /\ log (snd (ChromeDriver.get_version h "latest" w))
     = (log w ++ [EvGet "https://chromedriver.storage.googleapis.com/LATEST_RELEASE_latest"])%list
  /\ log (snd (ChromeDriver.get_version h "" w))
     = (log w ++ [EvGet "https://chromedriver.storage.googleapis.com/LATEST_RELEASE_"])%list.
Proof.
  split; [|split; [|split; [|split]]].
  - split.
    + intros Hlog. destruct (String.string_dec v "LATEST_RELEASE") as [E|Hv]; [exact E|].
      rewrite (get_version_other h v w Hv) in Hlog. cbn [snd emit log] in Hlog.
      apply app_inv_head in Hlog.
      assert (Hurl : cdriver_latest_release_url ++ "_" ++ v = cdriver_latest_release_url)
        by congruence.
      destruct (appended_url_differs v Hurl).
    + intros ->. rewrite get_version_sentinel. reflexivity.
  - intros Hv. rewrite (get_version_other h v w Hv). reflexivity.
  - reflexivity.
  - rewrite get_version_other by discriminate. reflexivity.
  - rewrite get_version_other by discriminate. reflexivity.
Qed.

Lemma get_version_sentinel_iff_witness :
  log (snd (ChromeDriver.get_version (Demo.host "Linux" "x86_64") "78" Demo.world0))
  = [EvGet "https://chromedriver.storage.googleapis.com/LATEST_RELEASE_78"]
  /\ log (snd (ChromeDriver.get_version (Demo.host "Linux" "x86_64") "LATEST_RELEASE" Demo.world0))
     = [EvGet "https://chromedriver.storage.googleapis.com/LATEST_RELEASE"].
Proof.
  split.
  - apply (proj1 (proj2 (get_version_sentinel_iff (Demo.host "Linux" "x86_64")
                           "78" Demo.world0))).
    discriminate.
  - apply (proj2 (proj1 (get_version_sentinel_iff (Demo.host "Linux" "x86_64")
                           "LATEST_RELEASE" Demo.world0))).
    reflexivity.
Defined.

(** ** Construction of the Chrome object *)

Section Construction.

Variable h : Host.

Lemma builder_world (ver : string) (w : World) :
  snd (ChromeDriver.get_cdriver_download_url h ver w) = w.
Proof.
  unfold ChromeDriver.get_cdriver_download_url, bind, ret, raise.
  destruct (String.eqb (system h) "Darwin");
    [|destruct (String.eqb (system h) "Linux");
      [|destruct (String.eqb (system h) "Windows")]];
    rewrite ?format_chrome; reflexivity.
Qed.

Lemma init_world (v : string) (w : World) :
  snd (ChromeDriver.init h v w) = snd (ChromeDriver.get_version h v w).
Proof.
  unfold ChromeDriver.init, bind.
  destruct (ChromeDriver.get_version h v w) as [[ver|e] w1]; [|reflexivity].
  pose proof (builder_world ver w1) as Hw.
  destruct (ChromeDriver.get_cdriver_download_url h ver w1) as [[url|e] w2];
    cbn [snd] in *; subst w2; reflexivity.
Qed.

Lemma init_raise (v : string) (w : World) (e : exn) :
  fst (ChromeDriver.get_version h v w) = Raise e ->
  fst (ChromeDriver.init h v w) = Raise e.
Proof.
  unfold ChromeDriver.init, bind.
  destruct (ChromeDriver.get_version h v w) as [[ver|e'] w1]; cbn [fst]; congruence.
Qed.

Lemma init_unsupported (v ver : string) (w : World) :
  fst (ChromeDriver.get_version h v w) = Ok ver ->
  ~ supported (system h) ->
  fst (ChromeDriver.init h v w) = Raise not_implemented.
Proof.
  unfold ChromeDriver.init, bind.
  destruct (ChromeDriver.get_version h v w) as [[ver'|e'] w1]; cbn [fst]; [|discriminate].
  intros _ Hn. rewrite (cdriver_type_unsupported h ver' w1 Hn). reflexivity.
Qed.

Lemma init_supported (v ver sfx : string) (w : World) :
  fst (ChromeDriver.get_version h v w) = Ok ver ->
  spec_chrome_suffix (system h) sfx ->
  fst (ChromeDriver.init h v w)
  = Ok {| ChromeDriver.version := ver;
          ChromeDriver.cdriver_url := chrome_url ver sfx;
          ChromeDriver.cdriver_path := abspath h (pwd h ++ "/chromedriver");
          ChromeDriver.cdriver_zip_path := abspath h (pwd h ++ "/chromedriver") ++ ".zip" |}.
Proof.
  unfold ChromeDriver.init, bind.
  destruct (ChromeDriver.get_version h v w) as [[ver'|e'] w1]; cbn [fst]; [|discriminate].
  intros [= ->] Hs. rewrite (cdriver_type_supported h ver sfx w1 Hs). reflexivity.
Qed.

Lemma download_chromedriver_gets (self : ChromeDriver.t) (w : World) :
  List.filter is_get (log (snd (ChromeDriver.download_chromedriver h self w)))
  = (List.filter is_get (log w) ++ [EvGet (ChromeDriver.cdriver_url self)])%list.
Proof.
  unfold ChromeDriver.download_chromedriver. run_cases;
    cbn [fst snd log fs]; rewrite ?List.filter_app; cbn [List.filter is_get];
    rewrite ?app_nil_r; reflexivity.
Qed.

End Construction.

(** C6: building the Chrome object sends the resolver's one GET and builds
    the URL at once: the world after construction is the world after
    version resolution, whatever the outcome; an exception of the resolver
    is the exception of the constructor; with a resolved version on an
    unknown system the constructor raises NotImplementedError; otherwise
    the object holds the resolved version and its URL.  The download
    action then sends one GET only, to the URL stored in the object. *)
Theorem chrome_init_eager (h : Host) (v : string) (w : World) :
  snd (ChromeDriver.init h v w) = snd (ChromeDriver.get_version h v w)
  /\ (exists url, log (snd (ChromeDriver.init h v w)) = (log w ++ [EvGet url])%list)
  /\ (forall e, fst (ChromeDriver.get_version h v w) = Raise e ->
        fst (ChromeDriver.init h v w) = Raise e)
  /\ (forall ver, fst (ChromeDriver.get_version h v w) = Ok ver ->
        ~ supported (system h) ->
        fst (ChromeDriver.init h v w) = Raise not_implemented)
  /\ (forall ver sfx, fst (ChromeDriver.get_version h v w) = Ok ver ->
        spec_chrome_suffix (system h) sfx ->
        exists self, fst (ChromeDriver.init h v w) = Ok self
          /\ ChromeDriver.version self = ver
          /\ ChromeDriver.cdriver_url self = chrome_url ver sfx)
  /\ (forall self w0,
        List.filter is_get (log (snd (ChromeDriver.download_chromedriver h self w0)))
        = (List.filter is_get (log w0) ++ [EvGet (ChromeDriver.cdriver_url self)])%list).
Proof.
  split; [|split; [|split; [|split; [|split]]]].
  - apply init_world.
  - rewrite init_world.
    destruct (String.string_dec v "LATEST_RELEASE") as [->|Hv].
    + rewrite get_version_sentinel. eexists. reflexivity.
    + rewrite (get_version_other h v w Hv). eexists. reflexivity.
  - intros e He. exact (init_raise h v w e He).
  - intros ver Hver Hn. exact (init_unsupported h v ver w Hver Hn).
  - intros ver sfx Hver Hs. rewrite (init_supported h v ver sfx w Hver Hs).
    eexists. split; [reflexivity|]. split; reflexivity.
  - apply download_chromedriver_gets.
Qed.

Lemma chrome_init_eager_witness :
  (exists self,
     fst (ChromeDriver.init (Demo.host "Windows" "AMD64") "78" Demo.world0) = Ok self
     /\ ChromeDriver.version self = "78.0.3904.105"
     /\ ChromeDriver.cdriver_url self
        = chrome_url "78.0.3904.105" "win32")
  /\ fst (ChromeDriver.init (Demo.host "Windows" "AMD64") "79" Demo.world0)
     = Raise (URLError "https://chromedriver.storage.googleapis.com/LATEST_RELEASE_79")
  /\ fst (ChromeDriver.init (Demo.host "SunOS" "sun4v") "78" Demo.world0)
     = Raise not_implemented.
Proof.
  split; [|split].
  - apply (proj1 (proj2 (proj2 (proj2 (proj2
             (chrome_init_eager (Demo.host "Windows" "AMD64") "78" Demo.world0)))))).
    + reflexivity.
    + exact chrome_windows.
  - apply (proj1 (proj2 (proj2
             (chrome_init_eager (Demo.host "Windows" "AMD64") "79" Demo.world0)))).
    reflexivity.
  - apply (proj1 (proj2 (proj2 (proj2
             (chrome_init_eager (Demo.host "SunOS" "sun4v") "78" Demo.world0))))
             "78.0.3904.105").
    + reflexivity.
    + unfold supported. simpl. intros [E|[E|E]]; discriminate E.
Defined.

(** ** The file system under download, extraction and clean-up *)

Section FileSystem.

Variable h : Host.

Lemma write_file_same (p : string) (bs : list Byte.byte) (m : gmap string file) :
  is_Some (write_file h p bs m !! p).
Proof.
  unfold write_file. destruct (m !! p); rewrite lookup_insert_eq; eauto.
Qed.

Lemma write_file_other (p q : string) (bs : list Byte.byte) (m : gmap string file) :
  q <> p -> write_file h p bs m !! q = m !! q.
Proof.
  intros Hne. unfold write_file.
  destruct (m !! p); rewrite lookup_insert_ne by congruence; reflexivity.
Qed.

Lemma write_file_mono (p q : string) (bs : list Byte.byte) (m : gmap string file) :
  is_Some (m !! q) -> is_Some (write_file h p bs m !! q).
Proof.
  intros Hq. destruct (decide (q = p)) as [->|Hne].
  - apply write_file_same.
  - rewrite write_file_other by assumption. exact Hq.
Qed.

Lemma extract_entry_same (dir : string) (e : entry) (m : gmap string file) :
  is_Some (extract_entry h dir e m !! join h dir (ename e)).
Proof.
  unfold extract_entry. destruct (emode e).
  - rewrite lookup_insert_eq. eauto.
  - apply write_file_same.
Qed.

Lemma extract_entry_mono (dir q : string) (e : entry) (m : gmap string file) :
  is_Some (m !! q) -> is_Some (extract_entry h dir e m !! q).
Proof.
  intros Hq. unfold extract_entry. destruct (emode e).
  - destruct (decide (q = join h dir (ename e))) as [->|Hne].
    + rewrite lookup_insert_eq. eauto.
    + rewrite lookup_insert_ne by congruence. apply write_file_mono, Hq.
  - apply write_file_mono, Hq.
Qed.

Lemma extract_fold_mono (dir q : string) (es : list entry) (m : gmap string file) :
  is_Some (m !! q) ->
  is_Some (fold_left (fun m e => extract_entry h dir e m) es m !! q).
Proof.
  revert m. induction es as [|e es IH]; intros m Hq; cbn [fold_left].
  - exact Hq.
  - apply IH, extract_entry_mono, Hq.
Qed.

Lemma extract_fold_in (dir : string) (es : list entry) (e : entry) (m : gmap string file) :
  In e es ->
  is_Some (fold_left (fun m e => extract_entry h dir e m) es m !! join h dir (ename e)).
Proof.
  revert m. induction es as [|x es IH]; intros m Hin; cbn [fold_left].
  - destruct Hin.
  - destruct Hin as [->|Hin].
    + apply extract_fold_mono, extract_entry_same.
    + apply IH, Hin.
Qed.

Lemma urlretrieve_ok_inv (url p : string) (w wd : World) :
  urlretrieve h url p w = (Ok tt, wd) ->
  exists body, http h url = Some body
    /\ wd = {| fs := write_file h p body (fs w);
               log := (log w ++ [EvGet url]) ++ [EvWrite p] |}.
Proof.
  unfold urlretrieve. unfold_prims. destruct (http h url) as [body|]; intros H.
  - exists body. split; [reflexivity|]. cbn in H. injection H as <-. reflexivity.
  - discriminate H.
Qed.

Lemma extractall_ok_inv (k : archive_kind) (a dir : string) (w w1 : World) :
  extractall h k a dir w = (Ok tt, w1) ->
  exists fa es, fs w !! a = Some fa
    /\ read_archive h k (data fa) = (es, true)
    /\ w1 = {| fs := fold_left (fun m e => extract_entry h dir e m) es (fs w);
               log := log w ++ [EvExtract k a dir] |}.
Proof.
  unfold extractall. unfold_prims. cbn [fs log].
  destruct (fs w !! a) as [fa|] eqn:Hfa; [|discriminate].
  destruct (read_archive h k (data fa)) as [es [|]] eqn:Hes; [|discriminate].
  intros H. exists fa, es. split; [reflexivity|]. split; [exact Hes|].
  injection H as <-. reflexivity.
Qed.

Lemma extractall_keeps (k : archive_kind) (a dir q : string) (w w1 : World) :
  extractall h k a dir w = (Ok tt, w1) ->
  is_Some (fs w !! q) -> is_Some (fs w1 !! q).
Proof.
  intros H Hq. apply extractall_ok_inv in H as (fa & es & _ & _ & ->).
  cbn [fs]. apply extract_fold_mono, Hq.
Qed.

Lemma remove_ok (p : string) (w : World) :
  is_Some (fs w !! p) ->
  remove p w = (Ok tt, {| fs := delete p (fs w); log := log w ++ [EvRemove p] |}).
Proof.
  intros [f Hf]. unfold remove. unfold_prims. cbn [fs log]. rewrite Hf. reflexivity.
Qed.

Lemma remove_ok_inv (p : string) (w w2 : World) :
  remove p w = (Ok tt, w2) ->
  is_Some (fs w !! p)
  /\ w2 = {| fs := delete p (fs w); log := log w ++ [EvRemove p] |}.
Proof.
  unfold remove. unfold_prims. cbn [fs log].
  destruct (fs w !! p) as [f|] eqn:Hf; [|discriminate].
  intros H. split; [eauto | injection H as <-; reflexivity].
Qed.

Lemma chmod_run (p : string) (f : file) (w : World) :
  fs w !! p = Some f ->
  bind (stat_mode p) (fun m => chmod p (Z.lor m S_IXUSR)) w
  = (Ok tt, {| fs := <[p := File (data f) (Z.lor (mode f) S_IXUSR)]> (fs w);
               log := log w ++ [EvChmod p (Z.lor (mode f) S_IXUSR)] |}).
Proof.
  intros Hf. unfold_prims. cbn [fs log]. rewrite Hf. cbn [fs log]. rewrite Hf.
  reflexivity.
Qed.

Lemma chmod_missing (p : string) (w : World) :
  fs w !! p = None ->
  bind (stat_mode p) (fun m => chmod p (Z.lor m S_IXUSR)) w
  = (Raise (FileNotFoundError p), w).
Proof. intros Hf. unfold_prims. rewrite Hf. reflexivity. Qed.

End FileSystem.

(** ** Permission bits *)

Lemma owner_execute_set (m : Z) : Z.testbit (Z.lor m S_IXUSR) 6 = true.
Proof. rewrite Z.lor_spec. apply orb_true_r. Qed.

Lemma other_bits_kept (m i : Z) :
  i <> 6 -> Z.testbit (Z.lor m S_IXUSR) i = Z.testbit m i.
Proof.
  intros Hi. rewrite Z.lor_spec.
  change S_IXUSR with (2 ^ 6). rewrite Z.pow2_bits_eqb by lia.
  replace (6 =? i) with false by (symmetry; apply Z.eqb_neq; lia).
  apply orb_false_r.
Qed.

Lemma append_ext_differs (s ext : string) : ext <> "" -> s ++ ext <> s.
Proof.
  intros He E. apply (f_equal String.length) in E.
  rewrite length_append in E. destruct ext; [congruence | simpl in E; lia].
Qed.

(** ** The download actions, step by step *)

Section Actions.

Variable h : Host.

Lemma chrome_split (self : ChromeDriver.t) (w : World) :
  ChromeDriver.download_chromedriver h self w
  = bind (chrome_fetch_extract h self)
      (fun _ =>
         (if negb (String.eqb (system h) "Windows")
          then bind (stat_mode (ChromeDriver.cdriver_path self))
                 (fun m => chmod (ChromeDriver.cdriver_path self) (Z.lor m S_IXUSR))
          else ret tt) >>
         Utils.cleanup (ChromeDriver.cdriver_zip_path self)) w.
Proof.
  unfold ChromeDriver.download_chromedriver, chrome_fetch_extract.
  unfold bind at 1 5 6.
  destruct (Utils.download_file h _ _ w) as [[[]|e] wd]; reflexivity.
Qed.

Lemma gecko_split (self : GeckoDriver.t) (w : World) :
  GeckoDriver.download_geckodriver h self w
  = bind (gecko_fetch_extract h self)
      (fun _ => Utils.cleanup (gecko_archive self (gecko_kind h))) w.
Proof.
  unfold GeckoDriver.download_geckodriver, gecko_fetch_extract, gecko_kind,
    Utils.unzip, Utils.untar.
  destruct (String.eqb (system h) "Windows"); cbn [extension gecko_archive];
    unfold bind;
    destruct (Utils.download_file h _ _ w) as [[[]|e] wd]; reflexivity.
Qed.

Lemma chrome_archive_kept (self : ChromeDriver.t) (w w1 : World) :
  chrome_fetch_extract h self w = (Ok tt, w1) ->
  is_Some (fs w1 !! ChromeDriver.cdriver_zip_path self).
Proof.
  unfold chrome_fetch_extract, Utils.unzip. intros H.
  apply bind_ok_inv in H as ([] & wd & _ & Hx).
  pose proof Hx as Hx'. apply extractall_ok_inv in Hx' as (fa & es & Hfa & _ & _).
  eapply extractall_keeps; [exact Hx | eauto].
Qed.

Lemma gecko_archive_kept (self : GeckoDriver.t) (w w1 : World) :
  gecko_fetch_extract h self w = (Ok tt, w1) ->
  is_Some (fs w1 !! gecko_archive self (gecko_kind h)).
Proof.
  unfold gecko_fetch_extract. intros H.
  apply bind_ok_inv in H as ([] & wd & _ & Hx).
  pose proof Hx as Hx'. apply extractall_ok_inv in Hx' as (fa & es & Hfa & _ & _).
  eapply extractall_keeps; [exact Hx | eauto].
Qed.

Lemma chrome_init_paths (v : string) (w w' : World) (self : ChromeDriver.t) :
  ChromeDriver.init h v w = (Ok self, w') ->
  ChromeDriver.cdriver_path self = abspath h (pwd h ++ "/chromedriver")
  /\ ChromeDriver.cdriver_zip_path self = ChromeDriver.cdriver_path self ++ ".zip".
Proof.
  unfold ChromeDriver.init. intros H.
  apply bind_ok_inv in H as (ver & w1 & _ & H).
  apply bind_ok_inv in H as (url & w2 & _ & H).
  unfold ret in H. injection H as <- _. split; reflexivity.
Qed.

Lemma gecko_init_paths (v : string) (w w' : World) (self : GeckoDriver.t) :
  GeckoDriver.init h v w = (Ok self, w') ->
  GeckoDriver.gdriver_path self = abspath h (pwd h ++ "/geckodriver")
  /\ (forall k, gecko_archive self k = GeckoDriver.gdriver_path self ++ extension k).
Proof.
  unfold GeckoDriver.init. intros H.
  apply bind_ok_inv in H as (url & w2 & _ & H).
  unfold ret in H. injection H as <- _. split; [reflexivity|].
  intros []; reflexivity.
Qed.

Lemma gecko_no_chmod (self : GeckoDriver.t) (w : World) (e : event) :
  In e (log (snd (GeckoDriver.download_geckodriver h self w))) ->
  is_chmod e = true -> In e (log w).
Proof.
  unfold GeckoDriver.download_geckodriver. intros Hin He.
  destruct (String.eqb (system h) "Windows"); run_cases; in_log; subst;
    discriminate He.
Qed.

End Actions.

(** ** Permissions and clean-up *)

(** C7: once download and extraction have returned, the Chrome action on
    Windows goes straight to the clean-up: no mode is changed.  On any
    other system the driver file gets its previous mode with S_IXUSR
    or-ed in: the owner-execute bit is set, every other bit is as it was,
    the file's bytes and every other file except the archive are
    untouched.  The Firefox action never changes a mode. *)
Theorem chrome_owner_execute (h : Host) (v : string) (w0 w0' w w1 : World)
    (self : ChromeDriver.t) :
  ChromeDriver.init h v w0 = (Ok self, w0') ->
  chrome_fetch_extract h self w = (Ok tt, w1) ->
  (system h = "Windows" ->
     ChromeDriver.download_chromedriver h self w
     = (Ok tt, {| fs := delete (ChromeDriver.cdriver_zip_path self) (fs w1);
                  log := log w1 ++ [EvRemove (ChromeDriver.cdriver_zip_path self)] |}))
  /\ (system h <> "Windows" ->
      forall f, fs w1 !! ChromeDriver.cdriver_path self = Some f ->
      exists w2,
        ChromeDriver.download_chromedriver h self w = (Ok tt, w2)
        /\ fs w2 !! ChromeDriver.cdriver_path self
           = Some (File (data f) (Z.lor (mode f) S_IXUSR))
        /\ (forall q, q <> ChromeDriver.cdriver_path self ->
                      q <> ChromeDriver.cdriver_zip_path self ->
                      fs w2 !! q = fs w1 !! q)
        /\ log w2 = (log w1 ++ [EvChmod (ChromeDriver.cdriver_path self)
                                  (Z.lor (mode f) S_IXUSR);
                                EvRemove (ChromeDriver.cdriver_zip_path self)])%list
        /\ Z.testbit (Z.lor (mode f) S_IXUSR) 6 = true
        /\ (forall i, i <> 6 ->
              Z.testbit (Z.lor (mode f) S_IXUSR) i = Z.testbit (mode f) i))
  /\ (forall gself wg e,
        In e (log (snd (GeckoDriver.download_geckodriver h gself wg))) ->
        is_chmod e = true -> In e (log wg)).
Proof.
  intros Hinit Hfx.
  destruct (chrome_init_paths h v w0 w0' self Hinit) as [_ Hzip].
  pose proof (chrome_archive_kept h self w w1 Hfx) as Hkept.
  split; [|split].
  - intros Hsys. rewrite chrome_split, (bind_ok _ _ _ _ _ Hfx).
    rewrite Hsys. cbn [String.eqb Ascii.eqb Bool.eqb negb].
    unfold bind at 1. unfold ret. unfold Utils.cleanup.
    apply remove_ok, Hkept.
  - intros Hsys f Hf.
    assert (Hne : ChromeDriver.cdriver_zip_path self <> ChromeDriver.cdriver_path self)
      by (rewrite Hzip; apply append_ext_differs; discriminate).
    eexists. split; [|split; [|split; [|split; [|split]]]].
    + rewrite chrome_split, (bind_ok _ _ _ _ _ Hfx).
      rewrite (eqb_neq_false _ _ Hsys). cbn [negb].
      rewrite (bind_ok _ _ _ _ _ (chmod_run _ _ _ Hf)).
      unfold Utils.cleanup. apply remove_ok. cbn [fs].
      rewrite lookup_insert_ne by congruence. exact Hkept.
    + cbn [fs]. rewrite lookup_delete_ne by exact Hne.
      apply lookup_insert_eq.
    + intros q Hq1 Hq2. cbn [fs].
      rewrite lookup_delete_ne by congruence.
      rewrite lookup_insert_ne by congruence. reflexivity.
    + cbn [log]. rewrite <- app_assoc. reflexivity.
    + apply owner_execute_set.
    + apply other_bits_kept.
  - apply gecko_no_chmod.
Qed.

Lemma chrome_owner_execute_witness :
  exists w2,
    ChromeDriver.download_chromedriver (Demo.host "Linux" "x86_64") Demo.chrome78 Demo.world0
    = (Ok tt, w2)
    /\ fs w2 !! "/opt/drivers/chromedriver" = Some (File Demo.driver_body 484).
Proof.
  pose (h := Demo.host "Linux" "x86_64").
  pose (w1 := snd (chrome_fetch_extract h Demo.chrome78 Demo.world0)).
  assert (Hinit : ChromeDriver.init h "78" Demo.world0
                  = (Ok Demo.chrome78, snd (ChromeDriver.init h "78" Demo.world0)))
    by reflexivity.
  assert (Hfx : chrome_fetch_extract h Demo.chrome78 Demo.world0 = (Ok tt, w1))
    by (vm_compute; reflexivity).
  assert (Hsys : system h <> "Windows") by discriminate.
  assert (Hf : fs w1 !! ChromeDriver.cdriver_path Demo.chrome78
               = Some (File Demo.driver_body 420))
    by (vm_compute; reflexivity).
  destruct (proj1 (proj2 (chrome_owner_execute h "78" Demo.world0 _ Demo.world0 w1
                            Demo.chrome78 Hinit Hfx)) Hsys _ Hf)
    as (w2 & Hrun & Hmode & _).
  exists w2. split; [exact Hrun | exact Hmode].
Defined.

(** ** Clean-up after extraction *)

Section CleanUp.

Variable h : Host.

Lemma cleaned_intro (k : archive_kind) (url name arch : string)
    (w wd w1 w1' w2 : World) (mid : list event) :
  Utils.download_file h url name w = (Ok tt, wd) ->
  extractall h k arch (pwd h) wd = (Ok tt, w1) ->
  log w1' = (log w1 ++ mid)%list ->
  (forall e, In e mid -> is_chmod e = true) ->
  (forall q, is_Some (fs w1 !! q) -> is_Some (fs w1' !! q)) ->
  remove arch w1' = (Ok tt, w2) ->
  cleaned h k url name arch w w2.
Proof.
  intros Hd Hx Hlog Hmid Hfs Hrm.
  pose proof Hx as Hx'.
  apply extractall_ok_inv in Hx' as (fa & es & Hfa & Hes & Hw1).
  apply remove_ok_inv in Hrm as [_ ->].
  exists wd, w1, fa, es, mid.
  split; [exact Hd|]. split; [exact Hfa|]. split; [exact Hes|].
  split; [exact Hx|]. split; [rewrite Hw1; reflexivity|].
  split; [cbn [log]; rewrite Hlog, <- app_assoc; reflexivity|].
  split; [exact Hmid|]. split; [cbn [fs]; apply lookup_delete_eq|].
  split.
  - intros q Hq Hsome. cbn [fs]. rewrite lookup_delete_ne by congruence.
    apply Hfs, Hsome.
  - intros e Hin Hne. cbn [fs]. rewrite lookup_delete_ne by congruence.
    apply Hfs. rewrite Hw1. cbn [fs]. apply extract_fold_in, Hin.
Qed.

Lemma chmod_step_inv (b : bool) (p : string) (w1 w1' : World) :
  (if b then bind (stat_mode p) (fun m => chmod p (Z.lor m S_IXUSR)) else ret tt) w1
  = (Ok tt, w1') ->
  exists mid, log w1' = (log w1 ++ mid)%list
    /\ (forall e, In e mid -> is_chmod e = true)
    /\ (forall q, is_Some (fs w1 !! q) -> is_Some (fs w1' !! q)).
Proof.
  destruct b.
  - destruct (fs w1 !! p) as [f|] eqn:Hf.
    + rewrite (chmod_run p f w1 Hf). intros [= <-].
      exists [EvChmod p (Z.lor (mode f) S_IXUSR)].
      split; [reflexivity|]. split.
      * intros e [<-|[]]. reflexivity.
      * intros q Hq. cbn [fs]. destruct (decide (q = p)) as [->|Hne].
        -- rewrite lookup_insert_eq. eauto.
        -- rewrite lookup_insert_ne by congruence. exact Hq.
    + rewrite (chmod_missing p w1 Hf). discriminate.
  - unfold ret. intros [= <-]. exists [].
    split; [rewrite app_nil_r; reflexivity|]. split; [intros e []|auto].
Qed.

Lemma chrome_cleaned (self : ChromeDriver.t) (w w2 : World) :
  ChromeDriver.download_chromedriver h self w = (Ok tt, w2) ->
  cleaned h Zip (ChromeDriver.cdriver_url self) "chromedriver.zip"
    (ChromeDriver.cdriver_zip_path self) w w2.
Proof.
  rewrite chrome_split. intros H.
  apply bind_ok_inv in H as ([] & w1 & Hfx & H).
  apply bind_ok_inv in H as ([] & w1' & Hch & Hrm).
  unfold chrome_fetch_extract in Hfx.
  apply bind_ok_inv in Hfx as ([] & wd & Hd & Hx).
  apply chmod_step_inv in Hch as (mid & Hlog & Hmid & Hfs).
  exact (cleaned_intro _ _ _ _ _ _ _ _ _ _ Hd Hx Hlog Hmid Hfs Hrm).
Qed.

Lemma gecko_cleaned (self : GeckoDriver.t) (w w2 : World) :
  GeckoDriver.download_geckodriver h self w = (Ok tt, w2) ->
  cleaned h (gecko_kind h) (GeckoDriver.gdriver_url self)
    ("geckodriver" ++ extension (gecko_kind h))
    (gecko_archive self (gecko_kind h)) w w2.
Proof.
  rewrite gecko_split. intros H.
  apply bind_ok_inv in H as ([] & w1 & Hfx & Hrm).
  unfold gecko_fetch_extract in Hfx.
  apply bind_ok_inv in Hfx as ([] & wd & Hd & Hx).
  apply (cleaned_intro _ _ _ _ _ _ _ w1 _ [] Hd Hx).
  - rewrite app_nil_r. reflexivity.
  - intros e [].
  - auto.
  - exact Hrm.
Qed.

Lemma chrome_completes (self : ChromeDriver.t) (w w1 : World) :
  chrome_fetch_extract h self w = (Ok tt, w1) ->
  system h = "Windows" \/ is_Some (fs w1 !! ChromeDriver.cdriver_path self) ->
  exists w2, ChromeDriver.download_chromedriver h self w = (Ok tt, w2).
Proof.
  intros Hfx Hcase. pose proof (chrome_archive_kept h self w w1 Hfx) as Hkept.
  rewrite chrome_split, (bind_ok _ _ _ _ _ Hfx).
  destruct (String.eqb (system h) "Windows") eqn:Hsys; cbn [negb].
  - unfold bind at 1. unfold ret. unfold Utils.cleanup.
    rewrite (remove_ok _ _ Hkept). eauto.
  - destruct Hcase as [Hw|[f Hf]].
    + apply String.eqb_eq in Hw. congruence.
    + rewrite (bind_ok _ _ _ _ _ (chmod_run _ _ _ Hf)).
      unfold Utils.cleanup. rewrite remove_ok; [eauto|].
      cbn [fs]. destruct Hkept as [fz Hfz].
      destruct (decide (ChromeDriver.cdriver_zip_path self
                        = ChromeDriver.cdriver_path self)) as [E|Hne].
      * rewrite E, lookup_insert_eq. eauto.
      * rewrite lookup_insert_ne by congruence. eauto.
Qed.

Lemma gecko_completes (self : GeckoDriver.t) (w w1 : World) :
  gecko_fetch_extract h self w = (Ok tt, w1) ->
  exists w2, GeckoDriver.download_geckodriver h self w = (Ok tt, w2).
Proof.
  intros Hfx. pose proof (gecko_archive_kept h self w w1 Hfx) as Hkept.
  rewrite gecko_split, (bind_ok _ _ _ _ _ Hfx).
  unfold Utils.cleanup. rewrite (remove_ok _ _ Hkept). eauto.
Qed.

End CleanUp.

(** C8, as written: the archive would be deleted whatever it held.  On
    Linux, with an archive that holds no chromedriver and none on disk,
    extraction returns, the permission step raises, and the archive is
    still there: no removal was attempted. *)
Lemma cleanup_skipped_without_driver :
  let h := Demo.host_with Demo.reader_docs "Linux" "x86_64" in
  let r := ChromeDriver.download_chromedriver h Demo.chrome78 Demo.world0 in
  fst r = Raise (FileNotFoundError "/opt/drivers/chromedriver")
  /\ fs (snd r) !! "/opt/drivers/chromedriver.zip" = Some (File Demo.zip_body 420)
  /\ log (snd r)
     = [EvGet (ChromeDriver.cdriver_url Demo.chrome78);
        EvWrite "/opt/drivers/chromedriver.zip";
        EvExtract Zip "/opt/drivers/chromedriver.zip" "/opt/drivers"].
Proof. cbv zeta. repeat split; vm_compute; reflexivity. Qed.

(** C8, amended: in both flows a successful action has removed the archive
    as its last call, after the extraction had returned, with nothing but
    the Chrome flow's mode change in between; the archive path is then
    free and every file extraction left at another path exists.  The
    action does succeed once download and extraction have: always in the
    Firefox flow, and in the Chrome flow on Windows or when the driver
    file exists after extraction. *)
Theorem archive_removed_after_extraction (h : Host) :
  (forall self w w2,
     ChromeDriver.download_chromedriver h self w = (Ok tt, w2) ->
     cleaned h Zip (ChromeDriver.cdriver_url self) "chromedriver.zip"
       (ChromeDriver.cdriver_zip_path self) w w2)
  /\ (forall self w w2,
        GeckoDriver.download_geckodriver h self w = (Ok tt, w2) ->
        cleaned h (gecko_kind h) (GeckoDriver.gdriver_url self)
          ("geckodriver" ++ extension (gecko_kind h))
          (gecko_archive self (gecko_kind h)) w w2)
  /\ (forall self w w1,
        chrome_fetch_extract h self w = (Ok tt, w1) ->
        system h = "Windows" \/ is_Some (fs w1 !! ChromeDriver.cdriver_path self) ->
        exists w2, ChromeDriver.download_chromedriver h self w = (Ok tt, w2))
  /\ (forall self w w1,
        gecko_fetch_extract h self w = (Ok tt, w1) ->
        exists w2, GeckoDriver.download_geckodriver h self w = (Ok tt, w2)).
Proof.
  split; [|split; [|split]].
  - apply chrome_cleaned.
  - apply gecko_cleaned.
  - apply chrome_completes.
  - apply gecko_completes.
Qed.

Lemma archive_removed_after_extraction_witness :
  cleaned (Demo.host "Linux" "x86_64") TarGz
    (GeckoDriver.gdriver_url (Demo.gecko26 "linux64.tar.gz"))
    "geckodriver.tar.gz" "/opt/drivers/geckodriver.tar.gz" Demo.world0
    (snd (GeckoDriver.download_geckodriver (Demo.host "Linux" "x86_64")
            (Demo.gecko26 "linux64.tar.gz") Demo.world0))
  /\ exists w2,
       ChromeDriver.download_chromedriver (Demo.host "Windows" "AMD64")
         Demo.chrome78 Demo.world0 = (Ok tt, w2).
Proof.
  split.
  - apply (proj1 (proj2 (archive_removed_after_extraction (Demo.host "Linux" "x86_64")))
             (Demo.gecko26 "linux64.tar.gz") Demo.world0).
    vm_compute. reflexivity.
  - apply (proj1 (proj2 (proj2 (archive_removed_after_extraction
                                  (Demo.host "Windows" "AMD64"))))
             Demo.chrome78 Demo.world0
             (snd (chrome_fetch_extract (Demo.host "Windows" "AMD64")
                     Demo.chrome78 Demo.world0))).
    + vm_compute. reflexivity.
    + left. reflexivity.
Defined.

(** ** The Firefox archive kind *)

Section GeckoKind.

Variable h : Host.

Lemma gecko_kind_table (v : string) (w w' : World) (url : string) :
  GeckoDriver.get_gdriver_download_url h v w = (Ok url, w') ->
  exists sfx,
    spec_gecko_suffix (system h) (PyStr.str_in "64" (machine h)) sfx (gecko_kind h)
    /\ url = gecko_url v sfx.
Proof.
  unfold GeckoDriver.get_gdriver_download_url, gecko_kind.
  destruct (String.eqb (system h) "Darwin") eqn:Ed.
  - apply String.eqb_eq in Ed. rewrite Ed. cbn [String.eqb Ascii.eqb Bool.eqb]. cbn match.
    unfold bind, ret. rewrite format_gecko. intros [= <- _].
    exists "macos.tar.gz". split; [constructor | reflexivity].
  - destruct (String.eqb (system h) "Linux") eqn:El.
    + apply String.eqb_eq in El. rewrite El. cbn [String.eqb Ascii.eqb Bool.eqb]. cbn match.
      destruct (PyStr.str_in "64" (machine h));
        unfold bind, ret; rewrite format_gecko; intros [= <- _];
        eexists; (split; [constructor | reflexivity]).
    + destruct (String.eqb (system h) "Windows") eqn:Ew.
      * apply String.eqb_eq in Ew. rewrite Ew.
        destruct (PyStr.str_in "64" (machine h));
          unfold bind, ret; rewrite format_gecko; intros [= <- _];
          eexists; (split; [constructor | reflexivity]).
      * unfold bind, raise. discriminate.
Qed.

Lemma gecko_url_one_kind (os : string) (b : bool) (v sfx : string)
    (k k' : archive_kind) :
  spec_gecko_suffix os b sfx k ->
  endswith (gecko_url v sfx) (extension k') = true -> k' = k.
Proof.
  intros Hs. unfold gecko_url. rewrite <- !append_assoc.
  destruct Hs, k'; (rewrite endswith_append_r by (simpl; lia));
    first [reflexivity | discriminate].
Qed.

Lemma gecko_extract_kind (self : GeckoDriver.t) (w : World) (e : event) :
  In e (log (snd (GeckoDriver.download_geckodriver h self w))) ->
  In e (log w)
  \/ match e with EvExtract k _ _ => k = gecko_kind h | _ => True end.
Proof.
  unfold GeckoDriver.download_geckodriver, gecko_kind.
  destruct (String.eqb (system h) "Windows"); run_cases; in_log; subst; auto.
Qed.

End GeckoKind.

(** C10: for an object the Firefox constructor has built, the download
    step and the URL agree on the archive kind.  The step fetches into
    geckodriver.zip and unzips on Windows, into geckodriver.tar.gz and
    untars elsewhere, and removes that same path; the URL carries the
    suffix the table gives that system for that very kind, ends in that
    kind's extension and in no other. *)
Theorem gecko_download_matches_url (h : Host) (v : string) (w w' : World)
    (self : GeckoDriver.t) :
  GeckoDriver.init h v w = (Ok self, w') ->
  (forall w0,
     GeckoDriver.download_geckodriver h self w0
     = bind (Utils.download_file h (GeckoDriver.gdriver_url self)
               ("geckodriver" ++ extension (gecko_kind h)) >>
             extractall h (gecko_kind h)
               (GeckoDriver.gdriver_path self ++ extension (gecko_kind h)) (pwd h))
         (fun _ => Utils.cleanup
                     (GeckoDriver.gdriver_path self ++ extension (gecko_kind h))) w0)
  /\ (gecko_kind h = Zip <-> system h = "Windows")
  /\ (exists sfx,
        spec_gecko_suffix (system h) (PyStr.str_in "64" (machine h)) sfx (gecko_kind h)
        /\ GeckoDriver.gdriver_url self = gecko_url v sfx)
  /\ endswith (GeckoDriver.gdriver_url self) (extension (gecko_kind h)) = true
  /\ (forall k, endswith (GeckoDriver.gdriver_url self) (extension k) = true ->
        k = gecko_kind h)
  /\ (forall w0 e,
        In e (log (snd (GeckoDriver.download_geckodriver h self w0))) ->
        In e (log w0)
        \/ match e with EvExtract k _ _ => k = gecko_kind h | _ => True end).
Proof.
  intros Hinit.
  destruct (gecko_init_paths h v w w' self Hinit) as [_ Harch].
  assert (Hurl : exists sfx,
             spec_gecko_suffix (system h) (PyStr.str_in "64" (machine h)) sfx (gecko_kind h)
             /\ GeckoDriver.gdriver_url self = gecko_url v sfx).
  { unfold GeckoDriver.init in Hinit.
    apply bind_ok_inv in Hinit as (url & w1 & Hb & Hr).
    apply gecko_kind_table in Hb as (sfx & Hs & ->).
    unfold ret in Hr. injection Hr as <- _. exists sfx. split; [exact Hs | reflexivity]. }
  split; [|split; [|split; [|split; [|split]]]].
  - intros w0. rewrite gecko_split. unfold gecko_fetch_extract.
    rewrite Harch. reflexivity.
  - unfold gecko_kind. destruct (String.eqb (system h) "Windows") eqn:Ew.
    + apply String.eqb_eq in Ew. tauto.
    + apply String.eqb_neq in Ew. split; [discriminate | tauto].
  - exact Hurl.
  - destruct Hurl as (sfx & Hs & ->). eapply gecko_url_kind, Hs.
  - destruct Hurl as (sfx & Hs & ->). intros k. eapply gecko_url_one_kind, Hs.
  - apply gecko_extract_kind.
Qed.

Lemma gecko_download_matches_url_witness :
  endswith (GeckoDriver.gdriver_url (Demo.gecko26 "win64.zip")) ".zip" = true.
Proof.
  apply (proj1 (proj2 (proj2 (proj2
           (gecko_download_matches_url (Demo.host "Windows" "AMD64") "0.26.0"
              Demo.world0 Demo.world0 (Demo.gecko26 "win64.zip") eq_refl))))).
Defined.

(** ** Failures of the download actions *)

Section Failures.

Variable h : Host.


Lemma extractall_damaged (k : archive_kind) (a dir : string) (w : World)
    (fa : file) (es : list entry) :
  fs w !! a = Some fa ->
  read_archive h k (data fa) = (es, false) ->
  extractall h k a dir w
  = (Raise (ArchiveError a),
     {| fs := fold_left (fun m e => extract_entry h dir e m) es (fs w);
        log := log w ++ [EvExtract k a dir] |}).
Proof.
  intros Hfa Hes. unfold extractall. unfold_prims. cbn [fs log].
  rewrite Hfa, Hes. reflexivity.
Qed.

Lemma insert_mono (p q : string) (x : file) (m : gmap string file) :
  is_Some (m !! q) -> is_Some (<[p := x]> m !! q).
Proof.
  intros Hq. destruct (decide (q = p)) as [->|Hne].
  - rewrite lookup_insert_eq. eauto.
  - rewrite lookup_insert_ne by congruence. exact Hq.
Qed.

End Failures.

Ltac kept :=
  cbn [fs] in *;
  repeat first
    [ assumption
    | rewrite lookup_delete_ne by congruence
    | apply insert_mono
    | apply extract_fold_mono
    | apply write_file_mono ].



(** X2: when the extraction raises on a damaged archive, either action
    stops there with that error: the members written before the damage
    are on disk, the archive is still on disk, and neither a mode change
    nor a removal is attempted. *)
Theorem damaged_archive_left_on_disk (h : Host) :
  (forall self w wd fa es,
     Utils.download_file h (ChromeDriver.cdriver_url self) "chromedriver.zip" w
     = (Ok tt, wd) ->
     fs wd !! ChromeDriver.cdriver_zip_path self = Some fa ->
     read_archive h Zip (data fa) = (es, false) ->
     exists w1,
       ChromeDriver.download_chromedriver h self w
       = (Raise (ArchiveError (ChromeDriver.cdriver_zip_path self)), w1)
       /\ log w1 = (log wd ++ [EvExtract Zip (ChromeDriver.cdriver_zip_path self) (pwd h)])%list
       /\ is_Some (fs w1 !! ChromeDriver.cdriver_zip_path self)
       /\ (forall e, In e es -> is_Some (fs w1 !! join h (pwd h) (ename e))))
  /\ (forall self w wd fa es,
        Utils.download_file h (GeckoDriver.gdriver_url self)
          ("geckodriver" ++ extension (gecko_kind h)) w = (Ok tt, wd) ->
        fs wd !! gecko_archive self (gecko_kind h) = Some fa ->
        read_archive h (gecko_kind h) (data fa) = (es, false) ->
        exists w1,
          GeckoDriver.download_geckodriver h self w
          = (Raise (ArchiveError (gecko_archive self (gecko_kind h))), w1)
          /\ log w1 = (log wd ++ [EvExtract (gecko_kind h)
                                    (gecko_archive self (gecko_kind h)) (pwd h)])%list
          /\ is_Some (fs w1 !! gecko_archive self (gecko_kind h))
          /\ (forall e, In e es -> is_Some (fs w1 !! join h (pwd h) (ename e)))).
Proof.
  split; intros self w wd fa es Hd Hfa Hes; eexists; (split; [|split; [|split]]).
  - rewrite chrome_split. apply bind_raise. unfold chrome_fetch_extract.
    rewrite (bind_ok _ _ _ _ _ Hd). unfold Utils.unzip.
    apply (extractall_damaged h _ _ _ _ fa es Hfa Hes).
  - reflexivity.
  - cbn [fs]. apply extract_fold_mono. eauto.
  - intros e Hin. cbn [fs]. apply extract_fold_in, Hin.
  - rewrite gecko_split. apply bind_raise. unfold gecko_fetch_extract.
    rewrite (bind_ok _ _ _ _ _ Hd).
    apply (extractall_damaged h _ _ _ _ fa es Hfa Hes).
  - reflexivity.
  - cbn [fs]. apply extract_fold_mono. eauto.
  - intros e Hin. cbn [fs]. apply extract_fold_in, Hin.
Qed.

Lemma damaged_archive_left_on_disk_witness :
  exists w1,
    ChromeDriver.download_chromedriver (Demo.host_with Demo.reader_damaged "Darwin" "arm64")
      Demo.chrome78 Demo.world0
    = (Raise (ArchiveError "/opt/drivers/chromedriver.zip"), w1)
    /\ is_Some (fs w1 !! "/opt/drivers/chromedriver.zip").
Proof.
  pose (h := Demo.host_with Demo.reader_damaged "Darwin" "arm64").
  destruct (proj1 (damaged_archive_left_on_disk h) Demo.chrome78 Demo.world0
              (snd (Utils.download_file h (ChromeDriver.cdriver_url Demo.chrome78)
                      "chromedriver.zip" Demo.world0))
              (File Demo.zip_body 420)
              [Entry "README" (list_byte_of_string "read me") None])
    as (w1 & Hrun & _ & Hzip & _).
  - vm_compute. reflexivity.
  - vm_compute. reflexivity.
  - reflexivity.
  - exists w1. split; [exact Hrun | exact Hzip].
Defined.

(** X3: on a system other than Windows, when no file sits at the driver
    path once extraction has returned, the Chrome action raises
    FileNotFoundError for the driver path and stops in the world the
    extraction left: no mode is changed and the archive is not removed. *)
Theorem chrome_driver_missing (h : Host) (self : ChromeDriver.t) (w w1 : World) :
  chrome_fetch_extract h self w = (Ok tt, w1) ->
  system h <> "Windows" ->
  fs w1 !! ChromeDriver.cdriver_path self = None ->
  ChromeDriver.download_chromedriver h self w
  = (Raise (FileNotFoundError (ChromeDriver.cdriver_path self)), w1)
  /\ is_Some (fs w1 !! ChromeDriver.cdriver_zip_path self).
Proof.
  intros Hfx Hsys Hnone. split.
  - rewrite chrome_split, (bind_ok _ _ _ _ _ Hfx).
    rewrite (eqb_neq_false _ _ Hsys). cbn [negb].
    apply bind_raise. apply chmod_missing, Hnone.
  - apply (chrome_archive_kept h self w w1 Hfx).
Qed.

Lemma chrome_driver_missing_witness :
  fst (ChromeDriver.download_chromedriver
         (Demo.host_with Demo.reader_docs "Darwin" "arm64") Demo.chrome78 Demo.world0)
  = Raise (FileNotFoundError "/opt/drivers/chromedriver").
Proof.
  pose (h := Demo.host_with Demo.reader_docs "Darwin" "arm64").
  assert (Hfx : chrome_fetch_extract h Demo.chrome78 Demo.world0
                = (Ok tt, snd (chrome_fetch_extract h Demo.chrome78 Demo.world0)))
    by (vm_compute; reflexivity).
  assert (Hsys : system h <> "Windows") by discriminate.
  assert (Hnone : fs (snd (chrome_fetch_extract h Demo.chrome78 Demo.world0))
                  !! ChromeDriver.cdriver_path Demo.chrome78 = None)
    by (vm_compute; reflexivity).
  exact (f_equal fst
           (proj1 (chrome_driver_missing h Demo.chrome78 Demo.world0 _ Hfx Hsys Hnone))).
Defined.

(** X4: whatever the outcome, an action deletes no file but its own
    archive: a file that was on disk at another path before the action is
    on disk after it. *)
Theorem actions_delete_only_archive (h : Host) :
  (forall self w q,
     q <> ChromeDriver.cdriver_zip_path self ->
     is_Some (fs w !! q) ->
     is_Some (fs (snd (ChromeDriver.download_chromedriver h self w)) !! q))
  /\ (forall self w q,
        q <> gecko_archive self (gecko_kind h) ->
        is_Some (fs w !! q) ->
        is_Some (fs (snd (GeckoDriver.download_geckodriver h self w)) !! q)).
Proof.
  split; intros self w q Hq Hsome.
  - unfold ChromeDriver.download_chromedriver. run_cases; kept.
  - unfold GeckoDriver.download_geckodriver, gecko_kind in *.
    destruct (String.eqb (system h) "Windows"); cbn [gecko_archive] in Hq;
      run_cases; kept.
Qed.

Lemma actions_delete_only_archive_witness :
  is_Some (fs (snd (ChromeDriver.download_chromedriver (Demo.host "Linux" "x86_64")
                      Demo.chrome78
                      {| fs := {[ "/opt/drivers/notes.txt" := File [] 420 ]};
                         log := [] |}))
           !! "/opt/drivers/notes.txt").
Proof.
  apply (proj1 (actions_delete_only_archive (Demo.host "Linux" "x86_64"))).
  - discriminate.
  - cbn [fs]. rewrite lookup_singleton_eq. eauto.
Defined.





(** ** A whole run *)

Section WholeRun.

Variable h : Host.

Lemma write_file_data (p : string) (bs : list Byte.byte) (m : gmap string file) :
  exists md, write_file h p bs m !! p = Some (File bs md).
Proof.
  unfold write_file. destruct (m !! p) as [f|]; rewrite lookup_insert_eq; eauto.
Qed.

Lemma fetch_extract_run (k : archive_kind) (url name arch : string) (w : World)
    (body : list Byte.byte) (es : list entry) :
  abspath h (join h (pwd h) name) = arch ->
  http h url = Some body ->
  read_archive h k body = (es, true) ->
  bind (Utils.download_file h url name) (fun _ => extractall h k arch (pwd h)) w
  = (Ok tt,
     {| fs := fold_left (fun m e => extract_entry h (pwd h) e m) es
                (write_file h arch body (fs w));
        log := ((log w ++ [EvGet url]) ++ [EvWrite arch]) ++ [EvExtract k arch (pwd h)] |}).
Proof.
  intros Hp Hb Hes.
  destruct (write_file_data arch body (fs w)) as [md Hmd].
  unfold Utils.download_file, urlretrieve, extractall. rewrite Hp. unfold_prims.
  rewrite Hb. cbn [fs log]. rewrite Hmd. cbn [data]. rewrite Hes. reflexivity.
Qed.

End WholeRun.

(** X7: a whole Firefox run.  When the path the download writes to is the
    archive path of the branch, the remote answers and the archive reads
    through, the action succeeds: the calls are the GET, the write, the
    extraction and the removal, in that order, and the files are those
    before, with the members extracted over them and no archive. *)
Theorem gecko_whole_run (h : Host) (self : GeckoDriver.t) (w : World)
    (body : list Byte.byte) (es : list entry) :
  abspath h (join h (pwd h) ("geckodriver" ++ extension (gecko_kind h)))
  = gecko_archive self (gecko_kind h) ->
  http h (GeckoDriver.gdriver_url self) = Some body ->
  read_archive h (gecko_kind h) body = (es, true) ->
  GeckoDriver.download_geckodriver h self w
  = (Ok tt,
     {| fs := delete (gecko_archive self (gecko_kind h))
                (fold_left (fun m e => extract_entry h (pwd h) e m) es
                   (write_file h (gecko_archive self (gecko_kind h)) body (fs w)));
        log := log w ++ [EvGet (GeckoDriver.gdriver_url self);
                         EvWrite (gecko_archive self (gecko_kind h));
                         EvExtract (gecko_kind h) (gecko_archive self (gecko_kind h)) (pwd h);
                         EvRemove (gecko_archive self (gecko_kind h))] |}).
Proof.
  intros Hp Hb Hes. rewrite gecko_split. unfold gecko_fetch_extract.
  rewrite (bind_ok _ _ _ _ _ (fetch_extract_run h _ _ _ _ w body es Hp Hb Hes)).
  unfold Utils.cleanup. rewrite remove_ok.
  - cbn [fs log]. rewrite <- !app_assoc. reflexivity.
  - cbn [fs]. apply extract_fold_mono, write_file_same.
Qed.

Lemma gecko_whole_run_witness :
  log (snd (GeckoDriver.download_geckodriver (Demo.host "Linux" "x86_64")
              (Demo.gecko26 "linux64.tar.gz") Demo.world0))
  = [EvGet (GeckoDriver.gdriver_url (Demo.gecko26 "linux64.tar.gz"));
     EvWrite "/opt/drivers/geckodriver.tar.gz";
     EvExtract TarGz "/opt/drivers/geckodriver.tar.gz" "/opt/drivers";
     EvRemove "/opt/drivers/geckodriver.tar.gz"].
Proof.
  exact (f_equal (fun r => log (snd r))
           (gecko_whole_run (Demo.host "Linux" "x86_64") (Demo.gecko26 "linux64.tar.gz")
              Demo.world0 Demo.tgz_body
              [Entry "geckodriver" Demo.driver_body (Some 493)]
              eq_refl eq_refl eq_refl)).
Defined.

(** X8: a whole Chrome run, from the world the constructor left.  When
    the path the download writes to is the archive path, the remote
    answers, the archive reads through and one member lands on the
    driver path, the action succeeds: the archive is gone, the driver
    file is there and, off Windows, carries the owner-execute bit; the
    calls are the GET, the write, the extraction, off Windows the mode
    change, and the removal, in that order. *)
Theorem chrome_whole_run (h : Host) (v : string) (w0 w : World)
    (self : ChromeDriver.t) (body : list Byte.byte) (es : list entry) (e : entry) :
  ChromeDriver.init h v w0 = (Ok self, w) ->
  abspath h (join h (pwd h) "chromedriver.zip") = ChromeDriver.cdriver_zip_path self ->
  http h (ChromeDriver.cdriver_url self) = Some body ->
  read_archive h Zip body = (es, true) ->
  In e es ->
  join h (pwd h) (ename e) = ChromeDriver.cdriver_path self ->
  exists w2 f,
    ChromeDriver.download_chromedriver h self w = (Ok tt, w2)
    /\ fs w2 !! ChromeDriver.cdriver_zip_path self = None
    /\ fs w2 !! ChromeDriver.cdriver_path self = Some f
    /\ (system h <> "Windows" -> Z.testbit (mode f) 6 = true)
    /\ log w2
       = (log w
          ++ [EvGet (ChromeDriver.cdriver_url self);
              EvWrite (ChromeDriver.cdriver_zip_path self);
              EvExtract Zip (ChromeDriver.cdriver_zip_path self) (pwd h)]
          ++ (if String.eqb (system h) "Windows" then []
              else [EvChmod (ChromeDriver.cdriver_path self) (mode f)])
          ++ [EvRemove (ChromeDriver.cdriver_zip_path self)])%list.
Proof.
  intros Hinit Hp Hb Hes Hin Hjoin.
  destruct (chrome_init_paths h v w0 w self Hinit) as [_ Hzip].
  assert (Hne : ChromeDriver.cdriver_zip_path self <> ChromeDriver.cdriver_path self)
    by (rewrite Hzip; apply append_ext_differs; discriminate).
  pose proof (fetch_extract_run h Zip _ _ _ w body es Hp Hb Hes) as Hfx.
  fold (Utils.unzip h (ChromeDriver.cdriver_zip_path self) (pwd h)) in Hfx.
  fold (chrome_fetch_extract h self) in Hfx.
  set (w1 := {| fs := fold_left (fun m e => extract_entry h (pwd h) e m) es
                        (write_file h (ChromeDriver.cdriver_zip_path self) body (fs w));
                log := ((log w ++ [EvGet (ChromeDriver.cdriver_url self)])
                        ++ [EvWrite (ChromeDriver.cdriver_zip_path self)])
                       ++ [EvExtract Zip (ChromeDriver.cdriver_zip_path self) (pwd h)] |})
    in Hfx.
  pose proof (chrome_archive_kept h self w w1 Hfx) as Hkept.
  assert (Hf0 : is_Some (fs w1 !! ChromeDriver.cdriver_path self)).
  { rewrite <- Hjoin. unfold w1. cbn [fs]. apply extract_fold_in, Hin. }
  destruct Hf0 as [f0 Hf0].
  rewrite chrome_split, (bind_ok _ _ _ _ _ Hfx).
  destruct (String.eqb (system h) "Windows") eqn:Ew; cbn [negb].
  - exists {| fs := delete (ChromeDriver.cdriver_zip_path self) (fs w1);
              log := log w1 ++ [EvRemove (ChromeDriver.cdriver_zip_path self)] |}, f0.
    split; [|split; [|split; [|split]]].
    + unfold bind at 1. unfold ret. unfold Utils.cleanup. apply remove_ok, Hkept.
    + cbn [fs]. apply lookup_delete_eq.
    + cbn [fs]. rewrite lookup_delete_ne by exact Hne. exact Hf0.
    + intros Hsys. apply String.eqb_eq in Ew. contradiction.
    + unfold w1. cbn [log]. rewrite <- !app_assoc. reflexivity.
  - exists {| fs := delete (ChromeDriver.cdriver_zip_path self)
                      (<[ChromeDriver.cdriver_path self
                         := File (data f0) (Z.lor (mode f0) S_IXUSR)]> (fs w1));
              log := (log w1 ++ [EvChmod (ChromeDriver.cdriver_path self)
                                   (Z.lor (mode f0) S_IXUSR)])
                     ++ [EvRemove (ChromeDriver.cdriver_zip_path self)] |},
           (File (data f0) (Z.lor (mode f0) S_IXUSR)).
    split; [|split; [|split; [|split]]].
    + rewrite (bind_ok _ _ _ _ _ (chmod_run _ _ _ Hf0)).
      unfold Utils.cleanup. apply remove_ok. cbn [fs].
      rewrite lookup_insert_ne by congruence. exact Hkept.
    + cbn [fs]. apply lookup_delete_eq.
    + cbn [fs]. rewrite lookup_delete_ne by exact Hne. apply lookup_insert_eq.
    + intros _. apply owner_execute_set.
    + unfold w1. cbn [log mode]. rewrite <- !app_assoc. reflexivity.
Qed.

Lemma chrome_whole_run_witness :
  exists w2 f,
    ChromeDriver.download_chromedriver (Demo.host "Linux" "x86_64") Demo.chrome78
      (snd (ChromeDriver.init (Demo.host "Linux" "x86_64") "78" Demo.world0))
    = (Ok tt, w2)
    /\ fs w2 !! "/opt/drivers/chromedriver.zip" = None
    /\ fs w2 !! "/opt/drivers/chromedriver" = Some f
    /\ Z.testbit (mode f) 6 = true.
Proof.
  destruct (chrome_whole_run (Demo.host "Linux" "x86_64") "78" Demo.world0 _
              Demo.chrome78 Demo.zip_body
              [Entry "chromedriver" Demo.driver_body None]
              (Entry "chromedriver" Demo.driver_body None)
              eq_refl eq_refl eq_refl eq_refl (or_introl eq_refl) eq_refl)
    as (w2 & f & Hrun & Hzip & Hf & Hx & _).
  exists w2, f. split; [exact Hrun|]. split; [exact Hzip|]. split; [exact Hf|].
  apply Hx. discriminate.
Defined.

(** ** The 64-bit test and the resolved version *)

Section Heuristics.

Lemma prefix_split (a s : string) :
  String.prefix a s = true -> exists b, s = a ++ b.
Proof.
  revert s. induction a as [|x a IH]; intros s H.
  - exists s. reflexivity.
  - destruct s as [|y s]; [discriminate H|]. cbn [String.prefix] in H.
    destruct (Ascii.ascii_dec x y) as [->|]; [|discriminate H].
    destruct (IH s H) as [b ->]. exists b. reflexivity.
Qed.

Lemma str_in_split (sub s : string) :
  PyStr.str_in sub s = true <-> exists a b, s = a ++ sub ++ b.
Proof.
  split.
  - induction s as [|c s IH]; cbn [PyStr.str_in]; intros H.
    + rewrite orb_false_r in H. apply prefix_split in H as [b ->].
      exists "", b. reflexivity.
    + apply orb_true_iff in H as [H|H].
      * apply prefix_split in H as [b ->]. exists "", b. reflexivity.
      * destruct (IH H) as (a & b & ->). exists (String c a), b. reflexivity.
  - intros (a & b & ->). apply str_in_append.
Qed.

Lemma utf8_ok_ascii (body : list Byte.byte) :
  Forall (fun b => (Byte.to_N b <= 127)%N) body ->
  PyStr.utf8_ok (List.length body) (List.map Byte.to_N body) = true.
Proof.
  induction 1 as [|b body Hb _ IH]; [reflexivity|].
  cbn [List.length List.map PyStr.utf8_ok].
  apply N.leb_le in Hb. rewrite Hb. exact IH.
Qed.

Lemma decode_ascii_body (body : list Byte.byte) :
  Forall (fun b => (Byte.to_N b <= 127)%N) body ->
  PyStr.decode body = Some (string_of_list_byte body).
Proof. intros H. unfold PyStr.decode. rewrite (utf8_ok_ascii body H). reflexivity. Qed.

End Heuristics.

(** X9: on Linux and on Windows the Firefox URL builder picks the 64-bit
    archive exactly when the machine name has 64 somewhere inside it,
    whatever else the name says, and the 32-bit archive otherwise. *)
Theorem gecko_64_iff_substring (h : Host) (v : string) (w : World) :
  system h = "Linux" \/ system h = "Windows" ->
  let sfx64 := if String.eqb (system h) "Linux" then "linux64.tar.gz" else "win64.zip" in
  let sfx32 := if String.eqb (system h) "Linux" then "linux32.tar.gz" else "win32.zip" in
  ((exists a b, machine h = a ++ "64" ++ b)
   /\ GeckoDriver.get_gdriver_download_url h v w = (Ok (gecko_url v sfx64), w))
  \/ (~ (exists a b, machine h = a ++ "64" ++ b)
      /\ GeckoDriver.get_gdriver_download_url h v w = (Ok (gecko_url v sfx32), w)).
Proof.
  intros Hsys sfx64 sfx32. subst sfx64 sfx32.
  destruct (PyStr.str_in "64" (machine h)) eqn:E64.
  - left. split; [apply str_in_split, E64|].
    destruct Hsys as [Hs|Hs].
    + assert (String.eqb (system h) "Linux" = true) as -> by (apply String.eqb_eq, Hs).
      apply (gdriver_type_supported h v _ TarGz w). rewrite Hs, E64. constructor.
    + assert (String.eqb (system h) "Linux" = false) as -> by (rewrite Hs; reflexivity).
      apply (gdriver_type_supported h v _ Zip w). rewrite Hs, E64. constructor.
  - right. split.
    + intros Hex. apply str_in_split in Hex. congruence.
    + destruct Hsys as [Hs|Hs].
      * assert (String.eqb (system h) "Linux" = true) as -> by (apply String.eqb_eq, Hs).
        apply (gdriver_type_supported h v _ TarGz w). rewrite Hs, E64. constructor.
      * assert (String.eqb (system h) "Linux" = false) as -> by (rewrite Hs; reflexivity).
        apply (gdriver_type_supported h v _ Zip w). rewrite Hs, E64. constructor.
Qed.

Lemma gecko_64_iff_substring_witness :
  GeckoDriver.get_gdriver_download_url (Demo.host "Linux" "aarch64") "0.26.0" Demo.world0
  = (Ok (gecko_url "0.26.0" "linux64.tar.gz"), Demo.world0).
Proof.
  destruct (gecko_64_iff_substring (Demo.host "Linux" "aarch64") "0.26.0" Demo.world0
              (or_introl eq_refl)) as [[_ H]|[Hn _]].
  - exact H.
  - exfalso. apply Hn. exists "aarch", "". reflexivity.
Defined.

(** X10: the resolved version is the response body as it came.  For a
    body of ASCII bytes, on a system the script knows, construction
    succeeds after its one GET, the object's version is the body byte
    for byte (nothing is stripped or checked) and the download URL is
    the template around that very text. *)
Theorem chrome_version_verbatim (h : Host) (v sfx : string) (w : World)
    (body : list Byte.byte) :
  let url := if String.eqb v "LATEST_RELEASE" then cdriver_latest_release_url
             else cdriver_latest_release_url ++ "_" ++ v in
  http h url = Some body ->
  Forall (fun b => (Byte.to_N b <= 127)%N) body ->
  spec_chrome_suffix (system h) sfx ->
  exists self,
    ChromeDriver.init h v w = (Ok self, emit (EvGet url) w)
    /\ ChromeDriver.version self = string_of_list_byte body
    /\ list_byte_of_string (ChromeDriver.version self) = body
    /\ ChromeDriver.cdriver_url self = chrome_url (string_of_list_byte body) sfx.
Proof.
  intros url Hb Hascii Hs.
  assert (Hg : ChromeDriver.get_version h v w = (fetched h url, emit (EvGet url) w)).
  { subst url. destruct (String.eqb v "LATEST_RELEASE") eqn:Ev.
    - apply String.eqb_eq in Ev. subst v. apply get_version_sentinel.
    - apply String.eqb_neq in Ev. apply (get_version_other h v w Ev). }
  assert (Hf : fetched h url = Ok (string_of_list_byte body)).
  { unfold fetched. rewrite Hb, (decode_ascii_body body Hascii). reflexivity. }
  rewrite Hf in Hg.
  pose proof (init_world h v w) as Hw.
  pose proof (init_supported h v (string_of_list_byte body) sfx w) as Hi.
  rewrite Hg in Hw, Hi. cbn [fst snd] in Hw, Hi. specialize (Hi eq_refl Hs).
  eexists. split; [|split; [|split]].
  - rewrite (surjective_pairing (ChromeDriver.init h v w)), Hw, Hi. reflexivity.
  - reflexivity.
  - cbn [ChromeDriver.version]. apply list_byte_of_string_of_list_byte.
  - reflexivity.
Qed.

Lemma chrome_version_verbatim_witness :
  exists self,
    ChromeDriver.init (Demo.host "Darwin" "arm64") "LATEST_RELEASE" Demo.world0
    = (Ok self, emit (EvGet cdriver_latest_release_url) Demo.world0)
    /\ ChromeDriver.version self = "79.0.3945.36".
Proof.
  destruct (chrome_version_verbatim (Demo.host "Darwin" "arm64") "LATEST_RELEASE" "mac64"
              Demo.world0 Demo.latest_body eq_refl) as (self & Hrun & Hver & _).
  - unfold Demo.latest_body. cbn [list_byte_of_string].
    repeat (constructor; [vm_compute; discriminate|]). constructor.
  - exact chrome_darwin.
  - exists self. split; [exact Hrun | exact Hver].
Defined.

(** ** Extraction seen from one path *)

Section OnePath.

Variable h : Host.
Variables dir p : string.

Lemma extract_entry_lookup (e : entry) (m : gmap string file) :
  extract_entry h dir e m !! p = entry_at h dir p e (m !! p).
Proof.
  unfold extract_entry, entry_at, mode_step, write_file, mode_or_new.
  destruct (String.eqb (join h dir (ename e)) p) eqn:E.
  - apply String.eqb_eq in E. subst p.
    destruct (emode e), (m !! join h dir (ename e));
      rewrite ?lookup_insert_eq; reflexivity.
  - apply String.eqb_neq in E.
    destruct (emode e), (m !! join h dir (ename e));
      rewrite ?lookup_insert_ne by congruence; reflexivity.
Qed.

Lemma extract_fold_lookup (es : list entry) (m : gmap string file) :
  fold_left (fun m e => extract_entry h dir e m) es m !! p
  = fold_left (fun o e => entry_at h dir p e o) es (m !! p).
Proof.
  revert m. induction es as [|e es IH]; intros m; cbn [fold_left].
  - reflexivity.
  - rewrite IH, extract_entry_lookup. reflexivity.
Qed.

Lemma mode_entry_at (e : entry) (o : option file) :
  mode_or_new h (entry_at h dir p e o) = mode_step h dir p e (mode_or_new h o).
Proof.
  unfold entry_at, mode_step.
  destruct (String.eqb (join h dir (ename e)) p); reflexivity.
Qed.

Lemma mode_fold (es : list entry) (o : option file) :
  mode_or_new h (fold_left (fun o e => entry_at h dir p e o) es o)
  = fold_left (fun m e => mode_step h dir p e m) es (mode_or_new h o).
Proof.
  revert o. induction es as [|e es IH]; intros o; cbn [fold_left].
  - reflexivity.
  - rewrite IH, mode_entry_at. reflexivity.
Qed.

(** Over a whole archive the mode is either left alone or set to one
    value that does not depend on what was there. *)
Lemma mode_fold_shape (es : list entry) :
  (forall m, fold_left (fun m e => mode_step h dir p e m) es m = m)
  \/ (exists c, forall m, fold_left (fun m e => mode_step h dir p e m) es m = c).
Proof.
  induction es as [|e es IH] using rev_ind.
  - left. reflexivity.
  - assert (Hstep : forall m,
              fold_left (fun m e => mode_step h dir p e m) (es ++ [e]) m
              = mode_step h dir p e (fold_left (fun m e => mode_step h dir p e m) es m))
      by (intros m; rewrite fold_left_app; reflexivity).
    unfold mode_step at 2 in Hstep.
    destruct (String.eqb (join h dir (ename e)) p), (emode e) as [md|];
      try (destruct IH as [IH|[c IH]];
           [left; intros m; rewrite Hstep; apply IH
           |right; exists c; intros m; rewrite Hstep; apply IH]).
    right. exists md. intros m. apply Hstep.
Qed.

End OnePath.

Section Refold.

Variable h : Host.
Variables dir p : string.

Let F (es : list entry) (o : option file) : option file :=
  fold_left (fun o e => entry_at h dir p e o) es o.
Let G (es : list entry) (m : Z) : Z :=
  fold_left (fun m e => mode_step h dir p e m) es m.
Let hit (e : entry) : bool := String.eqb (join h dir (ename e)) p.

Lemma fold_nohit (es : list entry) (o : option file) :
  existsb hit es = false -> F es o = o.
Proof.
  unfold F. revert o. induction es as [|e es IH]; intros o H; cbn [fold_left].
  - reflexivity.
  - cbn [existsb] in H. apply orb_false_iff in H as [He Hes].
    rewrite (IH _ Hes). unfold hit in He. unfold entry_at. rewrite He. reflexivity.
Qed.

Lemma entry_at_miss (e : entry) (o : option file) :
  hit e = false -> entry_at h dir p e o = o.
Proof. unfold hit, entry_at. intros ->. reflexivity. Qed.

Lemma mode_step_miss (e : entry) (m : Z) :
  hit e = false -> mode_step h dir p e m = m.
Proof. unfold hit, mode_step. intros ->. reflexivity. Qed.

Lemma entry_at_hit (e : entry) (o : option file) :
  hit e = true ->
  entry_at h dir p e o
  = Some (File (edata e) (mode_step h dir p e (mode_or_new h o))).
Proof. unfold hit, entry_at. intros ->. reflexivity. Qed.

Lemma fold_hit (es : list entry) :
  existsb hit es = true ->
  exists d, forall o, F es o = Some (File d (G es (mode_or_new h o))).
Proof.
  unfold F, G. induction es as [|e es IH] using rev_ind; [discriminate|].
  intros H. rewrite existsb_app in H. cbn [existsb] in H. rewrite orb_false_r in H.
  destruct (hit e) eqn:He.
  - exists (edata e). intros o. rewrite !fold_left_app. cbn [fold_left].
    rewrite (entry_at_hit e _ He), mode_fold. reflexivity.
  - rewrite orb_false_r in H. destruct (IH H) as [d Hd]. exists d. intros o.
    rewrite !fold_left_app. cbn [fold_left].
    rewrite (entry_at_miss e _ He), (mode_step_miss e _ He). apply Hd.
Qed.

(** Extracting the same archive over its own result changes nothing. *)
Lemma fold_twice (es : list entry) (o : option file) :
  F es (F es o) = F es o.
Proof.
  destruct (existsb hit es) eqn:Hh.
  - destruct (fold_hit es Hh) as [d Hd]. rewrite !Hd. cbn [mode_or_new mode].
    destruct (mode_fold_shape h dir p es) as [Hid|[c Hc]]; unfold G.
    + rewrite !Hid. reflexivity.
    + rewrite !Hc. reflexivity.
  - rewrite !(fold_nohit es _ Hh). reflexivity.
Qed.

(** The same with the owner-execute bit or-ed in between and after. *)
Lemma fold_twice_chmod (es : list entry) (o : option file) (f0 : file) :
  F es o = Some f0 ->
  exists f1,
    F es (Some (File (data f0) (Z.lor (mode f0) S_IXUSR))) = Some f1
    /\ File (data f1) (Z.lor (mode f1) S_IXUSR)
       = File (data f0) (Z.lor (mode f0) S_IXUSR).
Proof.
  intros Hf0.
  assert (Hlor : forall m, Z.lor (Z.lor m S_IXUSR) S_IXUSR = Z.lor m S_IXUSR)
    by (intros m; rewrite <- Z.lor_assoc, Z.lor_diag; reflexivity).
  destruct (existsb hit es) eqn:Hh.
  - destruct (fold_hit es Hh) as [d Hd]. rewrite Hd in Hf0 |- *.
    injection Hf0 as <-. eexists. split; [reflexivity|]. cbn [data mode mode_or_new].
    destruct (mode_fold_shape h dir p es) as [Hid|[c Hc]]; unfold G.
    + rewrite !Hid, Hlor. reflexivity.
    + rewrite !Hc. reflexivity.
  - rewrite (fold_nohit es _ Hh). eexists. split; [reflexivity|].
    cbn [data mode]. rewrite Hlor. reflexivity.
Qed.

End Refold.

(** ** Running an action again *)

Section Rerun.

Variable h : Host.

Lemma download_read_inv (url name arch : string) (w wd : World) (fa : file) :
  abspath h (join h (pwd h) name) = arch ->
  Utils.download_file h url name w = (Ok tt, wd) ->
  fs wd !! arch = Some fa ->
  http h url = Some (data fa).
Proof.
  intros Hp Hd Hfa. unfold Utils.download_file in Hd. rewrite Hp in Hd.
  apply urlretrieve_ok_inv in Hd as (body & Hb & ->). cbn [fs] in Hfa.
  destruct (write_file_data h arch body (fs w)) as [md Hmd].
  rewrite Hmd in Hfa. injection Hfa as <-. exact Hb.
Qed.

Lemma rerun_fs (arch : string) (body : list Byte.byte) (es : list entry)
    (m : gmap string file) :
  let run m := fold_left (fun m e => extract_entry h (pwd h) e m) es
                 (write_file h arch body m) in
  delete arch (run (delete arch (run m))) = delete arch (run m).
Proof.
  intros run. apply map_eq. intros q.
  destruct (decide (q = arch)) as [->|Hq].
  - rewrite !lookup_delete_eq. reflexivity.
  - rewrite !lookup_delete_ne by congruence. unfold run.
    rewrite (extract_fold_lookup h (pwd h) q es (write_file h arch body (delete arch _))).
    rewrite write_file_other by exact Hq.
    rewrite lookup_delete_ne by congruence.
    rewrite (extract_fold_lookup h (pwd h) q es (write_file h arch body m)).
    apply fold_twice.
Qed.


End Rerun.



Section RerunChrome.

Variable h : Host.
Variable self : ChromeDriver.t.

Let zip := ChromeDriver.cdriver_zip_path self.
Let path := ChromeDriver.cdriver_path self.
Let run (body : list Byte.byte) (es : list entry) (m : gmap string file) :=
  fold_left (fun m e => extract_entry h (pwd h) e m) es (write_file h zip body m).

Hypothesis Hp : abspath h (join h (pwd h) "chromedriver.zip") = zip.
Hypothesis Hne : zip <> path.

Lemma chrome_run_windows (w : World) (body : list Byte.byte) (es : list entry) :
  String.eqb (system h) "Windows" = true ->
  http h (ChromeDriver.cdriver_url self) = Some body ->
  read_archive h Zip body = (es, true) ->
  exists w2,
    ChromeDriver.download_chromedriver h self w = (Ok tt, w2)
    /\ fs w2 = delete zip (run body es (fs w)).
Proof.
  intros Ew Hb Hes. rewrite chrome_split. unfold chrome_fetch_extract, Utils.unzip.
  rewrite (bind_ok _ _ _ _ _ (fetch_extract_run h _ _ _ _ w body es Hp Hb Hes)).
  rewrite Ew. cbn [negb]. unfold bind at 1. unfold ret. unfold Utils.cleanup.
  rewrite remove_ok.
  - eexists. split; reflexivity.
  - cbn [fs]. apply extract_fold_mono, write_file_same.
Qed.

Lemma chrome_run_posix (w : World) (body : list Byte.byte) (es : list entry) :
  String.eqb (system h) "Windows" = false ->
  http h (ChromeDriver.cdriver_url self) = Some body ->
  read_archive h Zip body = (es, true) ->
  match run body es (fs w) !! path with
  | Some f0 =>
      exists w2,
        ChromeDriver.download_chromedriver h self w = (Ok tt, w2)
        /\ fs w2 = delete zip (<[path := File (data f0) (Z.lor (mode f0) S_IXUSR)]>
                                 (run body es (fs w)))
  | None =>
      fst (ChromeDriver.download_chromedriver h self w)
      = Raise (FileNotFoundError path)
  end.
Proof.
  intros Ew Hb Hes. rewrite chrome_split. unfold chrome_fetch_extract, Utils.unzip.
  pose proof (fetch_extract_run h Zip _ _ _ w body es Hp Hb Hes) as Hfx.
  match type of Hfx with _ = (_, ?W) => set (w1 := W) in Hfx end.
  rewrite (bind_ok _ _ _ _ _ Hfx). rewrite Ew. cbn [negb].
  change (run body es (fs w)) with (fs w1).
  destruct (fs w1 !! path) as [f0|] eqn:Hf0.
  - rewrite (bind_ok _ _ _ _ _ (chmod_run path f0 w1 Hf0)).
    unfold Utils.cleanup. rewrite remove_ok.
    + eexists. split; reflexivity.
    + cbn [fs]. rewrite lookup_insert_ne by (intros E; apply Hne; symmetry; exact E).
      apply extract_fold_mono, write_file_same.
  - rewrite (bind_raise _ _ _ _ _ (chmod_missing path w1 Hf0)). reflexivity.
Qed.

Lemma rerun_fs_chmod (body : list Byte.byte) (es : list entry)
    (m : gmap string file) (f0 : file) :
  run body es m !! path = Some f0 ->
  let m2 := delete zip (<[path := File (data f0) (Z.lor (mode f0) S_IXUSR)]>
                          (run body es m)) in
  exists f1,
    run body es m2 !! path = Some f1
    /\ delete zip (<[path := File (data f1) (Z.lor (mode f1) S_IXUSR)]>
                     (run body es m2)) = m2.
Proof.
  intros Hf0 m2.
  assert (Hat : forall q mm, q <> zip ->
            run body es mm !! q
            = fold_left (fun o e => entry_at h (pwd h) q e o) es (mm !! q)).
  { intros q mm Hq. unfold run. rewrite extract_fold_lookup.
    rewrite write_file_other by exact Hq. reflexivity. }
  assert (Hm2p : m2 !! path = Some (File (data f0) (Z.lor (mode f0) S_IXUSR))).
  { unfold m2. rewrite lookup_delete_ne by exact Hne. apply lookup_insert_eq. }
  rewrite Hat in Hf0 by congruence.
  destruct (fold_twice_chmod h (pwd h) path es _ f0 Hf0) as (f1 & Hf1 & Hchm).
  exists f1. split.
  - rewrite Hat by congruence. rewrite Hm2p. exact Hf1.
  - rewrite Hchm. apply map_eq. intros q.
    destruct (decide (q = zip)) as [->|Hq].
    + unfold m2. rewrite !lookup_delete_eq. reflexivity.
    + rewrite lookup_delete_ne by congruence.
      destruct (decide (q = path)) as [->|Hqp].
      * rewrite lookup_insert_eq. symmetry. exact Hm2p.
      * rewrite lookup_insert_ne by congruence.
        rewrite Hat by exact Hq. unfold m2.
        rewrite !lookup_delete_ne by congruence.
        rewrite !lookup_insert_ne by congruence.
        rewrite Hat by exact Hq. apply fold_twice.
Qed.

End RerunChrome.

(** X12: the Chrome action can be run again.  For an object the
    constructor built, when the path the download writes to is the
    archive path and a run has succeeded, a second run from the world it
    left succeeds too and leaves the very same files, the driver's mode
    included. *)
Theorem chrome_rerun (h : Host) (v : string) (w0 w0' w w2 : World)
    (self : ChromeDriver.t) :
  ChromeDriver.init h v w0 = (Ok self, w0') ->
  abspath h (join h (pwd h) "chromedriver.zip") = ChromeDriver.cdriver_zip_path self ->
  ChromeDriver.download_chromedriver h self w = (Ok tt, w2) ->
  exists w3,
    ChromeDriver.download_chromedriver h self w2 = (Ok tt, w3)
    /\ fs w3 = fs w2.
Proof.
  intros Hinit Hp Hrun.
  destruct (chrome_init_paths h v w0 w0' self Hinit) as [_ Hzip].
  assert (Hne : ChromeDriver.cdriver_zip_path self <> ChromeDriver.cdriver_path self)
    by (rewrite Hzip; apply append_ext_differs; discriminate).
  destruct (chrome_cleaned h self w w2 Hrun)
    as (wd & w1 & fa & es & mid & Hd & Hfa & Hes & _).
  pose proof (download_read_inv h _ _ _ w wd fa Hp Hd Hfa) as Hb.
  destruct (String.eqb (system h) "Windows") eqn:Ew.
  - destruct (chrome_run_windows h self Hp w (data fa) es Ew Hb Hes)
      as (w2' & Hrun' & Hfs2).
    rewrite Hrun in Hrun'. injection Hrun' as <-.
    destruct (chrome_run_windows h self Hp w2 (data fa) es Ew Hb Hes)
      as (w3 & Hrun3 & Hfs3).
    exists w3. split; [exact Hrun3|].
    rewrite Hfs3, Hfs2. apply rerun_fs.
  - pose proof (chrome_run_posix h self Hp Hne w (data fa) es Ew Hb Hes) as H1.
    cbv beta zeta in H1.
    destruct (fold_left (fun m e => extract_entry h (pwd h) e m) es
                (write_file h (ChromeDriver.cdriver_zip_path self) (data fa) (fs w))
              !! ChromeDriver.cdriver_path self) as [f0|] eqn:Hf0.
    + destruct H1 as (w2' & Hrun' & Hfs2).
      rewrite Hrun in Hrun'. injection Hrun' as <-.
      destruct (rerun_fs_chmod h self Hne (data fa) es (fs w) f0 Hf0)
        as (f1 & Hf1 & Hsame).
      rewrite <- Hfs2 in Hf1, Hsame.
      pose proof (chrome_run_posix h self Hp Hne w2 (data fa) es Ew Hb Hes) as H2.
      cbv beta zeta in H2. rewrite Hf1 in H2.
      destruct H2 as (w3 & Hrun3 & Hfs3).
      exists w3. split; [exact Hrun3|].
      rewrite Hfs3. exact Hsame.
    + rewrite Hrun in H1. discriminate H1.
Qed.

Lemma chrome_rerun_witness :
  exists w3,
    ChromeDriver.download_chromedriver (Demo.host "Linux" "x86_64") Demo.chrome78
      (snd (ChromeDriver.download_chromedriver (Demo.host "Linux" "x86_64")
              Demo.chrome78 Demo.world0))
    = (Ok tt, w3).
Proof.
  destruct (chrome_rerun (Demo.host "Linux" "x86_64") "78" Demo.world0
              (snd (ChromeDriver.init (Demo.host "Linux" "x86_64") "78" Demo.world0))
              Demo.world0
              (snd (ChromeDriver.download_chromedriver (Demo.host "Linux" "x86_64")
                      Demo.chrome78 Demo.world0))
              Demo.chrome78)
    as (w3 & Hrun & _).
  - reflexivity.
  - reflexivity.
  - vm_compute. reflexivity.
  - exists w3. exact Hrun.
Defined.

(** ** The order of the calls *)

Ltac trace_prefix :=
  rewrite <- ?app_assoc; cbn [app];
  first
    [ exists 1%nat, 0; reflexivity
    | exists 2%nat, 0; reflexivity
    | exists 3%nat, 0; reflexivity
    | exists 4%nat; eexists; reflexivity
    | exists 5%nat; eexists; reflexivity
    | exists 4%nat, 0; reflexivity ].

(** X13: whatever the outcome, the calls an action makes are an initial
    part of one fixed sequence: the GET, the write of the archive, the
    extraction, in the Chrome flow off Windows the mode change, and the
    removal.  An action that fails stops where it failed: nothing is
    removed that was not extracted first, and no second request is
    sent. *)
Theorem action_trace_prefix (h : Host) :
  (forall self w,
     exists n m,
       log (snd (ChromeDriver.download_chromedriver h self w))
       = (log w
          ++ firstn n
               ([EvGet (ChromeDriver.cdriver_url self);
                 EvWrite (abspath h (join h (pwd h) "chromedriver.zip"));
                 EvExtract Zip (ChromeDriver.cdriver_zip_path self) (pwd h)]
                ++ (if String.eqb (system h) "Windows" then []
                    else [EvChmod (ChromeDriver.cdriver_path self) m])
                ++ [EvRemove (ChromeDriver.cdriver_zip_path self)]))%list)
  /\ (forall self w,
        exists n,
          log (snd (GeckoDriver.download_geckodriver h self w))
          = (log w
             ++ firstn n
                  [EvGet (GeckoDriver.gdriver_url self);
                   EvWrite (abspath h (join h (pwd h)
                                         ("geckodriver" ++ extension (gecko_kind h))));
                   EvExtract (gecko_kind h) (gecko_archive self (gecko_kind h)) (pwd h);
                   EvRemove (gecko_archive self (gecko_kind h))])%list).
Proof.
  split; intros self w.
  - unfold ChromeDriver.download_chromedriver.
    destruct (String.eqb (system h) "Windows"); cbn [negb];
      run_cases; trace_prefix.
  - unfold GeckoDriver.download_geckodriver, gecko_kind.
    destruct (String.eqb (system h) "Windows"); cbn [gecko_archive extension];
      run_cases; rewrite <- ?app_assoc; cbn [app];
      first [ exists 1%nat; reflexivity | exists 2%nat; reflexivity
            | exists 3%nat; reflexivity | exists 4%nat; reflexivity ].
Qed.

(** ** What an action leaves alone *)

Section Frame.

Variable h : Host.

Lemma extract_fold_other (dir q : string) (es : list entry) (m : gmap string file) :
  (forall e, In e es -> join h dir (ename e) <> q) ->
  fold_left (fun m e => extract_entry h dir e m) es m !! q = m !! q.
Proof.
  intros Hq. rewrite extract_fold_lookup. apply fold_nohit.
  apply not_true_is_false. intros Hex. apply existsb_exists in Hex as (e & Hin & He).
  apply String.eqb_eq in He. exact (Hq e Hin He).
Qed.

Lemma extract_fold_frame (k : archive_kind) (bs : list Byte.byte)
    (es : list entry) (b : bool) (dir q : string) (m : gmap string file) :
  read_archive h k bs = (es, b) ->
  (forall bs e, In e (fst (read_archive h k bs)) -> join h dir (ename e) <> q) ->
  fold_left (fun m e => extract_entry h dir e m) es m !! q = m !! q.
Proof.
  intros Hr Hq. apply extract_fold_other. intros e Hin.
  apply (Hq bs e). rewrite Hr. exact Hin.
Qed.

End Frame.

Ltac framed :=
  cbn [fs] in *;
  repeat first
    [ reflexivity
    | rewrite lookup_delete_ne by congruence
    | rewrite lookup_insert_ne by congruence
    | erewrite extract_fold_frame by eassumption
    | rewrite write_file_other by congruence ].

(** X14: whatever the outcome, an action changes nothing at a path that
    is neither the path it downloads to, nor its archive path, nor (in
    the Chrome flow) the driver path, nor a path an archive member can
    land on: the file there, or its absence, is as before. *)
Theorem actions_frame (h : Host) :
  (forall self w q,
     q <> abspath h (join h (pwd h) "chromedriver.zip") ->
     q <> ChromeDriver.cdriver_zip_path self ->
     q <> ChromeDriver.cdriver_path self ->
     (forall bs e, In e (fst (read_archive h Zip bs)) ->
                   join h (pwd h) (ename e) <> q) ->
     fs (snd (ChromeDriver.download_chromedriver h self w)) !! q = fs w !! q)
  /\ (forall self w q,
        q <> abspath h (join h (pwd h) ("geckodriver" ++ extension (gecko_kind h))) ->
        q <> gecko_archive self (gecko_kind h) ->
        (forall bs e, In e (fst (read_archive h (gecko_kind h) bs)) ->
                      join h (pwd h) (ename e) <> q) ->
        fs (snd (GeckoDriver.download_geckodriver h self w)) !! q = fs w !! q).
Proof.
  split.
  - intros self w q Hq1 Hq2 Hq3 Hes.
    unfold ChromeDriver.download_chromedriver. run_cases; framed.
  - intros self w q Hq1 Hq2 Hes.
    unfold GeckoDriver.download_geckodriver, gecko_kind in *.
    destruct (String.eqb (system h) "Windows");
      cbn [gecko_archive extension String.append] in *; run_cases; framed.
Qed.

Lemma actions_frame_witness :
  fs (snd (ChromeDriver.download_chromedriver (Demo.host "Linux" "x86_64")
             Demo.chrome78
             {| fs := {[ "/opt/drivers/notes.txt" := File [] 420 ]}; log := [] |}))
  !! "/opt/drivers/notes.txt"
  = Some (File [] 420).
Proof.
  rewrite (proj1 (actions_frame (Demo.host "Linux" "x86_64"))).
  - cbn [fs]. apply lookup_singleton_eq.
  - discriminate.
  - discriminate.
  - discriminate.
  - intros bs e [<-|[]]. discriminate.
Defined.
